(** * image_resize.py: a shallow embedding and its verified properties

    The script reads a product table, uploads one image per row to a
    media-hosting service through a signed HTTP request, rewrites the
    returned URL with a delivery transformation and writes the augmented
    table.  This file embeds the helpers ([to_public_id], [cld_signature],
    [cld_transform_url], [upload_to_cloudinary], [cell_str]) and the row
    loop of [main] as Rocq functions, and proves properties of them.

    Python values are modelled as the script has them: a [str] is a
    sequence of Unicode code points, [bytes] a sequence of octets, an
    [int] an unbounded integer, a [float] an IEEE binary64, a [dict] a
    finite map.  Effects (console, network, clock, sleeping, the written
    file) are modelled as an explicit event trace produced against an
    environment of oracles. *)

From Stdlib Require Import ZArith NArith List Ascii String Floats DecimalString.
From Stdlib.Strings Require Import Byte.
From stdpp Require Import gmap list sorting.
Import ListNotations.
Local Open Scope N_scope.

(** ** Python strings and bytes *)

(** A Python [str]: its code points, in order. *)
Abbreviation pystr := (list N).

(** A Python [bytes] object. *)
Abbreviation pybytes := (list byte).

(** An ASCII literal of the source, as a Python string. *)
Definition lit (s : string) : pystr := map N_of_ascii (list_ascii_of_string s).

Definition byte_of_N (n : N) : byte :=
  match Byte.of_N (n mod 256) with
  | Some b => b
  | None => x00
  end.

(** [str.encode("utf-8")] on one code point.  Surrogates have no UTF-8
    form (CPython raises [UnicodeEncodeError]); values above U+10FFFF are
    not code points at all. *)
Definition utf8_char (c : N) : option (list N) :=
  if c <? 0x80 then Some [c]
  else if c <? 0x800 then Some [0xC0 + c / 64; 0x80 + c mod 64]
  else if (0xD800 <=? c) && (c <=? 0xDFFF) then None
  else if c <? 0x10000 then
    Some [0xE0 + c / 4096; 0x80 + (c / 64) mod 64; 0x80 + c mod 64]
  else if c <? 0x110000 then
    Some [0xF0 + c / 262144; 0x80 + (c / 4096) mod 64;
          0x80 + (c / 64) mod 64; 0x80 + c mod 64]
  else None.

Fixpoint utf8_encode (s : pystr) : option pybytes :=
  match s with
  | [] => Some []
  | c :: t =>
      match utf8_char c, utf8_encode t with
      | Some bs, Some rest => Some (map byte_of_N bs ++ rest)
      | _, _ => None
      end
  end.

(** [sep.join(parts)]. *)
Fixpoint join (sep : pystr) (parts : list pystr) : pystr :=
  match parts with
  | [] => []
  | [p] => p
  | p :: rest => p ++ sep ++ join sep rest
  end.

(** Python compares strings code point by code point; a proper prefix
    comes first. *)
Fixpoint str_leb (a b : pystr) : bool :=
  match a, b with
  | [], _ => true
  | _ :: _, [] => false
  | x :: a', y :: b' => if x <? y then true else if y <? x then false else str_leb a' b'
  end.

Definition str_le (a b : pystr) : Prop := str_leb a b = true.

#[global] Instance str_le_dec : RelDecision str_le.
Proof. intros a b. unfold str_le. apply _. Defined.

(** [str.isspace] on one character: the code points CPython's
    [_PyUnicode_IsWhitespace] accepts. *)
Definition py_isspace (c : N) : bool :=
  ((0x09 <=? c) && (c <=? 0x0D)) || ((0x1C <=? c) && (c <=? 0x20))
  || (c =? 0x85) || (c =? 0xA0) || (c =? 0x1680)
  || ((0x2000 <=? c) && (c <=? 0x200A))
  || (c =? 0x2028) || (c =? 0x2029) || (c =? 0x202F) || (c =? 0x205F)
  || (c =? 0x3000).

Fixpoint lstrip (p : N -> bool) (s : pystr) : pystr :=
  match s with
  | [] => []
  | c :: t => if p c then lstrip p t else s
  end.

Definition rstrip (p : N -> bool) (s : pystr) : pystr := rev (lstrip p (rev s)).

(** [s.strip()] with [p] the set of characters to trim. *)
Definition strip (p : N -> bool) (s : pystr) : pystr := rstrip p (lstrip p s).

(** ** SHA-1 (FIPS 180-4), as [hashlib.sha1(...).hexdigest()] computes it *)

Module SHA1.

Definition mask32 : N := 0xFFFFFFFF.

Definition add32 (x y : N) : N := (x + y) mod 2 ^ 32.

Definition rotl (n x : N) : N :=
  N.lor (N.land (N.shiftl x n) mask32) (N.shiftr x (32 - n)).

(** Padding: a 1 bit, zeros up to 56 mod 64, the bit length on 8 bytes. *)
Definition be_bytes (width : nat) (v : N) : list N :=
  map (fun i => (v / 256 ^ N.of_nat i) mod 256) (rev (seq 0 width)).

Definition pad (msg : list N) : list N :=
  let len := N.of_nat (length msg) in
  let zeros := (64 + 55 - len mod 64) mod 64 in
  msg ++ [0x80] ++ repeat 0 (N.to_nat zeros) ++ be_bytes 8 (8 * len).

Fixpoint be_word (bs : list N) (acc : N) : N :=
  match bs with
  | [] => acc
  | b :: t => be_word t (acc * 256 + b)
  end.

(** The sixteen big-endian words of a 64-byte block. *)
Fixpoint block_words (n : nat) (bs : list N) : list N :=
  match n with
  | O => []
  | S n' => be_word (firstn 4 bs) 0 :: block_words n' (skipn 4 bs)
  end.

(** Message schedule: [win] holds the last sixteen words, oldest first. *)
Fixpoint schedule (n : nat) (win : list N) : list N :=
  match n with
  | O => []
  | S n' =>
      let w := rotl 1 (N.lxor (N.lxor (nth 13 win 0) (nth 8 win 0))
                              (N.lxor (nth 2 win 0) (nth 0 win 0))) in
      w :: schedule n' (skipn 1 win ++ [w])
  end.

Record state := State { ha : N; hb : N; hc : N; hd : N; he : N }.

Definition initial : state :=
  State 0x67452301 0xEFCDAB89 0x98BADCFE 0x10325476 0xC3D2E1F0.

Definition round_fn (t : nat) (b c d : N) : N :=
  if (t <? 20)%nat then N.lor (N.land b c) (N.land (N.lxor b mask32) d)
  else if (t <? 40)%nat then N.lxor (N.lxor b c) d
  else if (t <? 60)%nat then N.lor (N.lor (N.land b c) (N.land b d)) (N.land c d)
  else N.lxor (N.lxor b c) d.

Definition round_const (t : nat) : N :=
  if (t <? 20)%nat then 0x5A827999
  else if (t <? 40)%nat then 0x6ED9EBA1
  else if (t <? 60)%nat then 0x8F1BBCDC
  else 0xCA62C1D6.

Definition round (s : state) (tw : nat * N) : state :=
  let '(t, w) := tw in
  let tmp := add32 (add32 (add32 (add32 (rotl 5 (ha s)) (round_fn t (hb s) (hc s) (hd s)))
                                 (he s)) (round_const t)) w in
  State tmp (ha s) (rotl 30 (hb s)) (hc s) (hd s).

Definition compress (h : state) (block : list N) : state :=
  let w16 := block_words 16 block in
  let w := w16 ++ schedule 64 w16 in
  let s := fold_left round (combine (seq 0 80) w) h in
  State (add32 (ha h) (ha s)) (add32 (hb h) (hb s)) (add32 (hc h) (hc s))
        (add32 (hd h) (hd s)) (add32 (he h) (he s)).

Fixpoint blocks (n : nat) (bs : list N) (h : state) : state :=
  match n with
  | O => h
  | S n' => blocks n' (skipn 64 bs) (compress h (firstn 64 bs))
  end.

Definition digest (msg : pybytes) : list N :=
  let p := pad (map Byte.to_N msg) in
  let h := blocks (length p / 64) p initial in
  flat_map (be_bytes 4) [ha h; hb h; hc h; hd h; he h].

Definition hex_digit (n : N) : N := if n <? 10 then 48 + n else 87 + n.

(** The lower-case hexadecimal digest, forty characters. *)
Definition hexdigest (msg : pybytes) : pystr :=
  flat_map (fun b => [hex_digit (b / 16); hex_digit (b mod 16)]) (digest msg).

End SHA1.

(** ** base64.b64encode *)

Module Base64.

Definition alphabet (i : N) : N :=
  if i <? 26 then 65 + i
  else if i <? 52 then 97 + (i - 26)
  else if i <? 62 then 48 + (i - 52)
  else if i =? 62 then 43
  else 47.

Fixpoint encode_N (bs : list N) : pystr :=
  match bs with
  | [] => []
  | [a] => [alphabet (a / 4); alphabet ((a mod 4) * 16); 61; 61]
  | [a; b] =>
      [alphabet (a / 4); alphabet ((a mod 4) * 16 + b / 16);
       alphabet ((b mod 16) * 4); 61]
  | a :: b :: c :: rest =>
      [alphabet (a / 4); alphabet ((a mod 4) * 16 + b / 16);
       alphabet ((b mod 16) * 4 + c / 64); alphabet (c mod 64)] ++ encode_N rest
  end.

(** [base64.b64encode(bs).decode("utf-8")]: the output is ASCII, so the
    decoding is the identity on octet values. *)
Definition b64encode (bs : pybytes) : pystr := encode_N (map Byte.to_N bs).

End Base64.

(** ** Python values *)

(** The scalar values that occur in the script's dictionaries, table
    cells and JSON fields. *)
Inductive pyval : Type :=
  | VNone
  | VBool (b : bool)
  | VInt (z : Z)
  | VFloat (f : float)
  | VStr (s : pystr).

(** What the script takes from CPython's library through tables that are
    not part of the repository. *)
Record pylib : Type := PyLib {
  (** [repr] of a float, which [str()] and f-strings print *)
  float_repr : float -> pystr;
  (** [unicodedata.normalize("NFKD", s)] *)
  nfkd : pystr -> pystr;
  (** [Py_UNICODE_ISALNUM], on which the regular expression class [\w] rests *)
  isalnum : N -> bool
}.

(** [str(n)] for an [int]. *)
Definition int_str (z : Z) : pystr := lit (NilZero.string_of_int (Z.to_int z)).

(** [str(v)], also what an f-string field prints. *)
Definition py_str (L : pylib) (v : pyval) : pystr :=
  match v with
  | VNone => lit "None"
  | VBool true => lit "True"
  | VBool false => lit "False"
  | VInt z => int_str z
  | VFloat f => float_repr L f
  | VStr s => s
  end.

(** A float equals an int when it denotes exactly that integer. *)
Definition float_eq_Z (f : float) (z : Z) : bool :=
  match Prim2SF f with
  | S754_zero _ => (z =? 0)%Z
  | S754_finite s m e =>
      let v := if s then Z.neg m else Z.pos m in
      if (0 <=? e)%Z then (z =? v * 2 ^ e)%Z else (z * 2 ^ (- e) =? v)%Z
  | _ => false
  end.

Inductive pynum : Type :=
  | NumZ (z : Z)
  | NumF (f : float).

(** [bool] is a subclass of [int]: [False] is 0 and [True] is 1. *)
Definition as_num (v : pyval) : option pynum :=
  match v with
  | VBool b => Some (NumZ (if b then 1 else 0)%Z)
  | VInt z => Some (NumZ z)
  | VFloat f => Some (NumF f)
  | _ => None
  end.

Definition num_eq (a b : pynum) : bool :=
  match a, b with
  | NumZ x, NumZ y => (x =? y)%Z
  | NumF f, NumF g => PrimFloat.eqb f g
  | NumF f, NumZ z => float_eq_Z f z
  | NumZ z, NumF f => float_eq_Z f z
  end.

(** Python's [==] on these values. *)
Definition py_eq (a b : pyval) : bool :=
  match a, b with
  | VNone, VNone => true
  | VStr s, VStr t => bool_decide (s = t)
  | _, _ =>
      match as_num a, as_num b with
      | Some x, Some y => num_eq x y
      | _, _ => false
      end
  end.

(** [v in t] for a tuple [t]: some element equals [v]. *)
Definition py_in (v : pyval) (t : list pyval) : bool := existsb (py_eq v) t.

(** Truth value of a string: non-empty. *)
Definition truthy (s : pystr) : bool :=
  match s with
  | [] => false
  | _ :: _ => true
  end.

(** ** Helpers of the script *)

Definition underscore : N := 95.
Definition hyphen : N := 45.

(** [re.sub(cls+, "_", s)]: every maximal run of characters of the class
    [bad] becomes one underscore.  [in_run] tells that the previous
    character belonged to the run being replaced. *)
Fixpoint sub_runs (bad : N -> bool) (in_run : bool) (s : pystr) : pystr :=
  match s with
  | [] => []
  | c :: t =>
      if bad c then
        if in_run then sub_runs bad true t else underscore :: sub_runs bad true t
      else c :: sub_runs bad false t
  end.

(** [str.replace(old, new)]: the occurrences of [old] are found from
    left to right and do not overlap; [skip] counts the characters of
    the occurrence just replaced that are still to be passed over. *)
Fixpoint replace_go (old new : pystr) (skip : nat) (s : pystr) : pystr :=
  match s with
  | [] => []
  | c :: t =>
      match skip with
      | S k => replace_go old new k t
      | O =>
          if bool_decide (take (length old) s = old)
          then new ++ replace_go old new (length old - 1) t
          else c :: replace_go old new 0 t
      end
  end.

Definition replace (old new s : pystr) : pystr :=
  match old with
  | [] => new ++ flat_map (fun c => c :: new) s
  | _ :: _ => replace_go old new 0 s
  end.

(** [s.find(old)]: the index of the first occurrence, if any. *)
Fixpoint str_find (old s : pystr) : option nat :=
  match s with
  | [] => if bool_decide (old = []) then Some 0%nat else None
  | _ :: t =>
      if bool_decide (take (length old) s = old) then Some 0%nat
      else S <$> str_find old t
  end.

Section Helpers.

Variable L : pylib.

(** The class [\w] of a [str] pattern: alphanumeric or underscore. *)
Definition is_word (c : N) : bool := isalnum L c || (c =? underscore).

(** The class [[^\w\-]]. *)
Definition non_word (c : N) : bool := negb (is_word c || (c =? hyphen)).

(** The class [[\u0300-\u036f]] of combining diacritical marks. *)
Definition combining_mark (c : N) : bool := (0x300 <=? c) && (c <=? 0x36F).

Definition is_underscore (c : N) : bool := c =? underscore.

(** [to_public_id]: the four assignments of the source, in order.  The
    argument is a string, for which [str(s or empty)] is [s] itself. *)
Definition to_public_id (s : pystr) : pystr :=
  let s := nfkd L s in
  let s := List.filter (fun c => negb (combining_mark c)) s in
  let s := sub_runs non_word false s in
  let s := strip is_underscore (sub_runs is_underscore false s) in
  s.

(** [sorted(params)]: the keys in increasing order. *)
Definition sorted_keys (params : gmap pystr pyval) : list pystr :=
  merge_sort str_le (map fst (map_to_list params)).

(** [params[k]] for a key of [params]. *)
Definition param_at (params : gmap pystr pyval) (k : pystr) : pyval :=
  default VNone (params !! k).

(** [params[k] not in (None, '', False)]. *)
Definition signable (v : pyval) : bool := negb (py_in v [VNone; VStr []; VBool false]).

(** The keys the generator of lines 41-43 yields. *)
Definition signed_keys (params : gmap pystr pyval) : list pystr :=
  List.filter (fun k => signable (param_at params k)) (sorted_keys params).

(** The string that is hashed. *)
Definition to_sign (params : gmap pystr pyval) (api_secret : pystr) : pystr :=
  join (lit "&")
       (map (fun k => k ++ lit "=" ++ py_str L (param_at params k)) (signed_keys params))
  ++ api_secret.

(** [cld_signature]; [None] when the encoding raises. *)
Definition cld_signature (params : gmap pystr pyval) (api_secret : pystr) : option pystr :=
  SHA1.hexdigest <$> utf8_encode (to_sign params api_secret).

Definition upload_marker : pystr := lit "/upload/".

(** [cld_transform_url]. *)
Definition cld_transform_url (secure_url : pyval) (transform : pystr) : pystr :=
  replace upload_marker (lit "/upload/" ++ transform ++ lit "/") (py_str L secure_url).

(** [pd.isna] on a scalar. *)
Definition isna (v : pyval) : bool :=
  match v with
  | VNone => true
  | VFloat f => PrimFloat.is_nan f
  | _ => false
  end.

(** [cell_str]. *)
Definition cell_str (val : pyval) : pystr :=
  if isna val then [] else strip py_isspace (py_str L val).

End Helpers.

(** ** Settings, environment and effects *)

(** The module-level settings of the script (lines 15-27).  The three
    credentials are what [os.getenv] returned: [None] when unset. *)
Record settings : Type := Settings {
  CLD_FOLDER : pystr;
  USE_IMAGE_ALT_TEXT_AS_PUBLIC_ID : bool;
  THROTTLE_SEC : float;
  CLD_DELIVERY_TRANSFORM : pystr;
  SOURCE_XLSX : pystr;
  SOURCE_SHEET : pystr;
  DEST_XLSX : pystr;
  CLOUD_NAME : option pystr;
  CLOUD_API_KEY : option pystr;
  CLOUD_API_SECRET : option pystr
}.

(** The values the source assigns, for given environment variables. *)
Definition script_settings (name key secret : option pystr) : settings :=
  {| CLD_FOLDER := lit "husq_parts";
     USE_IMAGE_ALT_TEXT_AS_PUBLIC_ID := true;
     THROTTLE_SEC := 0x1.3333333333333p-2%float;
     CLD_DELIVERY_TRANSFORM := lit "c_pad,w_800,h_800,b_white,f_auto,q_auto,dpr_auto";
     SOURCE_XLSX := lit "source.xlsx";
     SOURCE_SHEET := lit "Sheet1";
     DEST_XLSX := lit "final_output.xlsx";
     CLOUD_NAME := name;
     CLOUD_API_KEY := key;
     CLOUD_API_SECRET := secret |}.

(** The exceptions a row can end with. *)
Inductive exn : Type :=
  (** [RuntimeError(f"Fetch failed ({status}) for URL: {remote_url}")] *)
  | FetchFailed (status : Z) (remote_url : pystr)
  (** [RuntimeError(f"Upload failed ({status}): {text}")] *)
  | UploadFailed (status : Z) (text : pystr)
  (** [str.encode] met a surrogate *)
  | EncodeError
  (** [str + None] when the secret is unset *)
  | TypeError
  (** raised inside [requests] or by the JSON decoding, with its message *)
  | LibraryError (msg : pystr).

(** An HTTP response as the script reads it: [json] is what
    [up.json().get("secure_url")] finds, or the message of the exception
    that the decoding or the lookup raises. *)
Record response : Type := Response {
  status_code : Z;
  content_type : option pystr;
  content : pybytes;
  text : pystr;
  json : pystr + option pyval
}.

(** A data frame: column labels and, per row, the cells in column order. *)
Record table : Type := Table {
  columns : list pystr;
  rows : list (list pyval)
}.

(** The outside world.  The network and the clock answer differently
    over time: the index is that of the row being processed, which makes
    at most one call of each kind. *)
Record world : Type := World {
  read_excel : pystr -> pystr -> pystr + table;
  http_get : nat -> pystr -> gmap pystr pystr -> pystr + response;
  http_post : nat -> pystr -> gmap pystr pyval -> pystr + response;
  now : nat -> Z
}.

(** The lines the script prints, by their template and the values
    interpolated into it. *)
Inductive message : Type :=
  (** "ERROR: Missing CLOUD_NAME / CLOUD_API_KEY / CLOUD_API_SECRET env vars." *)
  | MsgMissingEnv
  (** "ERROR reading {SOURCE_XLSX}: {e}" *)
  | MsgReadError (path e : pystr)
  (** "ERROR: source file must contain column: '{col}'" *)
  | MsgMissingColumn (col : pystr)
  (** "[Row {n}] Missing SKU - skipping" *)
  | MsgMissingSku (excel_row_num : nat)
  (** "[Row {n}] Empty Image cell for {sku} - skipping" *)
  | MsgEmptyImage (excel_row_num : nat) (sku : pystr)
  (** "Row {n} {sku} -> {final_url}", after a check mark *)
  | MsgRowDone (excel_row_num : nat) (sku final_url : pystr)
  (** "Row {n} {sku}: {e}", after a cross mark *)
  | MsgRowFailed (excel_row_num : nat) (sku : pystr) (e : exn)
  (** "Done. Attempted: {attempted}, Processed: {processed}" *)
  | MsgDone (attempted processed : nat)
  (** "Output written to: {DEST_XLSX}" *)
  | MsgWritten (dest : pystr)
  (** "No rows processed; nothing to write." *)
  | MsgNothing.

(** What the script does to the world, in order. *)
Inductive event : Type :=
  | EvPrint (m : message)
  | EvGet (url : pystr) (headers : gmap pystr pystr)
  | EvPost (endpoint : pystr) (payload : gmap pystr pyval)
  | EvSleep (seconds : float)
  | EvWrite (path : pystr) (cols : list pystr) (cells : list (list pystr)).

Definition is_sleep (e : event) : bool :=
  match e with
  | EvSleep _ => true
  | _ => false
  end.

Definition is_write (e : event) : bool :=
  match e with
  | EvWrite _ _ _ => true
  | _ => false
  end.

(** The state of [main]'s loop (lines 122-124) and what happened so far. *)
Record loop_state : Type := LoopState {
  out_rows : list (gmap pystr pystr);
  attempted : nat;
  processed : nat;
  trace : list event
}.

Definition loop_init : loop_state := LoopState [] 0 0 [].

(** [row.get(col)] on a row of a frame whose column labels are distinct,
    as [pd.read_excel] yields them: the cell under the column labelled
    [col], [None] when there is none. *)
Fixpoint row_get (cols : list pystr) (cells : list pyval) (col : pystr) : pyval :=
  match cols, cells with
  | c :: cols', v :: cells' => if bool_decide (c = col) then v else row_get cols' cells' col
  | _, _ => VNone
  end.

(** [col in df.columns]. *)
Definition has_column (cols : list pystr) (col : pystr) : bool := bool_decide (col ∈ cols).

(** Lines 169-173: the source columns, then each extra column that is
    not there yet. *)
Definition extra_cols : list pystr := [lit "Variant SKU"; lit "Image Src"].

Definition all_cols (source_cols : list pystr) : list pystr :=
  fold_left (fun acc col => if has_column acc col then acc else acc ++ [col])
            extra_cols source_cols.

(** The outcome of lines 128-136 for a row. *)
Inductive checked : Type :=
  | MissingSku
  | EmptyImage (sku : pystr)
  | Ready (sku img_url : pystr).

Section Pipeline.

Variable L : pylib.
Variable cfg : settings.
Variable W : world.

(** An unset credential prints as [None] in an f-string. *)
Definition getenv_str (v : option pystr) : pystr :=
  match v with
  | Some s => s
  | None => lit "None"
  end.

Definition getenv_val (v : option pystr) : pyval :=
  match v with
  | Some s => VStr s
  | None => VNone
  end.

(** Lines 71-78. *)
Definition sign_params (ts public_id : pystr) : gmap pystr pyval :=
  let base : gmap pystr pyval :=
    <[lit "timestamp" := VStr ts]>
      (<[lit "unique_filename" := VStr (lit "false")]>
         (<[lit "overwrite" := VStr (lit "true")]>
            (<[lit "folder" := VStr (CLD_FOLDER cfg)]> ∅))) in
  if truthy public_id then <[lit "public_id" := VStr public_id]> base else base.

(** Lines 53-58. *)
Definition request_headers (referer : option pystr) : gmap pystr pystr :=
  let headers : gmap pystr pystr :=
    <[lit "Accept" := lit "image/avif,image/webp,image/apng,image/*,*/*;q=0.8"]>
      (<[lit "User-Agent" := lit "Mozilla/5.0"]> ∅) in
  match referer with
  | Some r => if truthy r then <[lit "Referer" := r]> headers else headers
  | None => headers
  end.

(** Lines 82-87: later keys of the literal override earlier ones. *)
Definition upload_payload (data_url : pystr) (params : gmap pystr pyval) (sig : pystr)
  : gmap pystr pyval :=
  <[lit "signature" := VStr sig]>
    (<[lit "api_key" := getenv_val (CLOUD_API_KEY cfg)]>
       (params ∪ <[lit "file" := VStr data_url]> ∅)).

(** [upload_to_cloudinary], for the [i]-th row: the requests made and
    either the exception raised or the value returned. *)
Definition upload_to_cloudinary (i : nat) (remote_url public_id : pystr)
    (referer : option pystr) : list event * (exn + pyval) :=
  let headers := request_headers referer in
  let get := EvGet remote_url headers in
  match http_get W i remote_url headers with
  | inl msg => ([get], inl (LibraryError msg))
  | inr resp =>
      if negb (status_code resp =? 200)%Z
      then ([get], inl (FetchFailed (status_code resp) remote_url))
      else
        let ctype := default (lit "image/png") (content_type resp) in
        let file_b64 := Base64.b64encode (content resp) in
        let data_url := lit "data:" ++ ctype ++ lit ";base64," ++ file_b64 in
        let endpoint :=
          lit "https://api.cloudinary.com/v1_1/" ++ getenv_str (CLOUD_NAME cfg)
          ++ lit "/image/upload" in
        let ts := int_str (now W i) in
        let params := sign_params ts public_id in
        match CLOUD_API_SECRET cfg with
        | None => ([get], inl TypeError)
        | Some secret =>
            match cld_signature L params secret with
            | None => ([get], inl EncodeError)
            | Some sig =>
                let payload := upload_payload data_url params sig in
                let post := EvPost endpoint payload in
                match http_post W i endpoint payload with
                | inl msg => ([get; post], inl (LibraryError msg))
                | inr up =>
                    if negb ((status_code up =? 200)%Z || (status_code up =? 201)%Z)
                    then ([get; post], inl (UploadFailed (status_code up) (text up)))
                    else
                      match json up with
                      | inl msg => ([get; post], inl (LibraryError msg))
                      | inr field => ([get; post], inr (default (VStr []) field))
                      end
                end
            end
        end
  end.

(** Lines 128-136. *)
Definition check_row (cols : list pystr) (row : list pyval) : checked :=
  let sku := cell_str L (row_get cols row (lit "SKU")) in
  if negb (truthy sku) then MissingSku
  else
    let img_url := cell_str L (row_get cols row (lit "Image")) in
    if negb (truthy img_url) then EmptyImage sku else Ready sku img_url.

(** Lines 138-140: an optional column's cell, empty when the table has
    no such column. *)
Definition optional_cell (cols : list pystr) (row : list pyval) (col : pystr) : pystr :=
  if has_column cols col then cell_str L (row_get cols row col) else [].

(** Lines 142-144. *)
Definition row_public_id (cols : list pystr) (row : list pyval) (sku : pystr) : pystr :=
  let alt_text := optional_cell cols row (lit "Image Alt Text") in
  let product_name := optional_cell cols row (lit "Product Name") in
  let alt_id := to_public_id L alt_text in
  let name_id := to_public_id L product_name in
  if USE_IMAGE_ALT_TEXT_AS_PUBLIC_ID cfg && truthy alt_id then alt_id
  else if truthy name_id then name_id else sku.

(** [referer or None] of line 148. *)
Definition row_referer (cols : list pystr) (row : list pyval) : option pystr :=
  let referer := optional_cell cols row (lit "Starting Url") in
  if truthy referer then Some referer else None.

(** Lines 152-156. *)
Definition make_out_row (cols : list pystr) (row : list pyval) (sku final_url : pystr)
  : gmap pystr pystr :=
  <[lit "Image Src" := final_url]>
    (<[lit "Variant SKU" := sku]>
       (fold_left (fun d col => <[col := cell_str L (row_get cols row col)]> d) cols ∅)).

(** The call of line 148 for a row that passed the checks. *)
Definition attempt_row (cols : list pystr) (idx : nat) (row : list pyval)
    (sku img_url : pystr) : list event * (exn + pyval) :=
  upload_to_cloudinary idx img_url (row_public_id cols row sku) (row_referer cols row).

(** One iteration of the loop (lines 126-164). *)
Definition process_row (cols : list pystr) (st : loop_state) (idx : nat)
    (row : list pyval) : loop_state :=
  let excel_row_num := (idx + 2)%nat in
  match check_row cols row with
  | MissingSku =>
      {| out_rows := out_rows st; attempted := attempted st; processed := processed st;
         trace := trace st ++ [EvPrint (MsgMissingSku excel_row_num)] |}
  | EmptyImage sku =>
      {| out_rows := out_rows st; attempted := attempted st; processed := processed st;
         trace := trace st ++ [EvPrint (MsgEmptyImage excel_row_num sku)] |}
  | Ready sku img_url =>
      match attempt_row cols idx row sku img_url with
      | (evs, inr base_url) =>
          let final_url := cld_transform_url L base_url (CLD_DELIVERY_TRANSFORM cfg) in
          {| out_rows := out_rows st ++ [make_out_row cols row sku final_url];
             attempted := S (attempted st);
             processed := S (processed st);
             trace := trace st ++ evs
                      ++ [EvPrint (MsgRowDone excel_row_num sku final_url);
                          EvSleep (THROTTLE_SEC cfg)] |}
      | (evs, inl e) =>
          {| out_rows := out_rows st;
             attempted := S (attempted st);
             processed := processed st;
             trace := trace st ++ evs
                      ++ [EvPrint (MsgRowFailed excel_row_num sku e);
                          EvSleep (THROTTLE_SEC cfg)] |}
      end
  end.

(** [for idx, row in df.iterrows()], from index [idx] on. *)
Fixpoint loop_from (cols : list pystr) (idx : nat) (todo : list (list pyval))
    (st : loop_state) : loop_state :=
  match todo with
  | [] => st
  | row :: rest => loop_from cols (S idx) rest (process_row cols st idx row)
  end.

Definition loop (df : table) : loop_state := loop_from (columns df) 0 (rows df) loop_init.

(** Lines 166-182. *)
Definition finish (source_cols : list pystr) (st : loop_state) : list event :=
  match out_rows st with
  | [] => [EvPrint MsgNothing]
  | _ :: _ =>
      let cols := all_cols source_cols in
      [EvWrite (DEST_XLSX cfg) cols
               (map (fun r : gmap pystr pystr => map (fun c => default [] (r !! c)) cols)
                    (out_rows st));
       EvPrint (MsgDone (attempted st) (processed st));
       EvPrint (MsgWritten (DEST_XLSX cfg))]
  end.

Definition credential_set (v : option pystr) : bool :=
  match v with
  | Some s => truthy s
  | None => false
  end.

(** [main]: everything the run does, in order. *)
Definition main : list event :=
  if negb (credential_set (CLOUD_NAME cfg) && credential_set (CLOUD_API_KEY cfg)
           && credential_set (CLOUD_API_SECRET cfg))
  then [EvPrint MsgMissingEnv]
  else
    match read_excel W (SOURCE_XLSX cfg) (SOURCE_SHEET cfg) with
    | inl e => [EvPrint (MsgReadError (SOURCE_XLSX cfg) e)]
    | inr df =>
        match List.find (fun col => negb (has_column (columns df) col))
                        [lit "SKU"; lit "Image"] with
        | Some col => [EvPrint (MsgMissingColumn col)]
        | None => trace (loop df) ++ finish (columns df) (loop df)
        end
    end.

End Pipeline.

(** ** The specification's wording, for comparison *)

(** The string to sign as the specification describes it: drop the
    parameters whose value is in the class [dropped], sort the remaining
    names, write them as [key=value] joined by [&], append the secret. *)
Definition canonical_string (L : pylib) (dropped : pyval -> bool)
    (params : gmap pystr pyval) (secret : pystr) : pystr :=
  let kept : gmap pystr pyval :=
    filter (fun kv : pystr * pyval => dropped kv.2 = false) params in
  let names := merge_sort str_le (map fst (map_to_list kept)) in
  join (lit "&") (map (fun k => k ++ lit "=" ++ py_str L (param_at kept k)) names)
  ++ secret.

(** "Empty, null, or boolean false", read literally. *)
Definition stated_dropped (v : pyval) : bool :=
  match v with
  | VNone => true
  | VStr [] => true
  | VBool false => true
  | _ => false
  end.

(** What the source tests: equality with one of [None], [''], [False]. *)
Definition equal_dropped (v : pyval) : bool := py_in v [VNone; VStr []; VBool false].

Definition stated_signature (L : pylib) (params : gmap pystr pyval) (secret : pystr)
  : option pystr :=
  SHA1.hexdigest <$> utf8_encode (canonical_string L stated_dropped params secret).

(** The class [[A-Za-z0-9_-]]. *)
Definition ascii_id_char (c : N) : bool :=
  ((48 <=? c) && (c <=? 57)) || ((65 <=? c) && (c <=? 90))
  || ((97 <=? c) && (c <=? 122)) || (c =? underscore) || (c =? hyphen).

(** The identifier as the specification words the choice. *)
Definition stated_public_id (L : pylib) (cfg : settings) (cols : list pystr)
    (row : list pyval) : pystr :=
  let alt := to_public_id L (cell_str L (row_get cols row (lit "Image Alt Text"))) in
  let name := to_public_id L (cell_str L (row_get cols row (lit "Product Name"))) in
  let sku := cell_str L (row_get cols row (lit "SKU")) in
  if USE_IMAGE_ALT_TEXT_AS_PUBLIC_ID cfg then
    if truthy alt then alt else if truthy name then name else sku
  else
    if truthy name then name else sku.

(** The table a run works on, when it gets as far as the loop. *)
Definition started (cfg : settings) (W : world) : option table :=
  if credential_set (CLOUD_NAME cfg) && credential_set (CLOUD_API_KEY cfg)
     && credential_set (CLOUD_API_SECRET cfg)
  then
    match read_excel W (SOURCE_XLSX cfg) (SOURCE_SHEET cfg) with
    | inr df =>
        if has_column (columns df) (lit "SKU") && has_column (columns df) (lit "Image")
        then Some df else None
    | inl _ => None
    end
  else None.

Definition is_done (e : event) : bool :=
  match e with
  | EvPrint (MsgDone _ _) => true
  | _ => false
  end.

(** A run of the class [bad] ends at the end of the string or at a
    character outside the class. *)
Definition run_ends (bad : N -> bool) (rest : pystr) : Prop :=
  match rest with
  | [] => True
  | c :: _ => bad c = false
  end.

(** The network requests among the events. *)
Definition is_request (e : event) : bool :=
  match e with
  | EvGet _ _ => true
  | EvPost _ _ => true
  | _ => false
  end.

(** How many times a trace sleeps. *)
Definition sleeps (tr : list event) : nat := length (List.filter is_sleep tr).

(** ** A concrete library excerpt and concrete worlds, for closed examples *)

Module Examples.

Definition ascii_alnum (c : N) : bool :=
  ((48 <=? c) && (c <=? 57)) || ((65 <=? c) && (c <=? 90)) || ((97 <=? c) && (c <=? 122)).

(** Alphanumeric code points of the excerpt: ASCII letters and digits and
    the CJK unified ideographs U+4E00..U+9FA5 (category Lo). *)
Definition excerpt_isalnum (c : N) : bool :=
  ascii_alnum c || ((0x4E00 <=? c) && (c <=? 0x9FA5)).

(** Compatibility decompositions of the excerpt; ASCII and the CJK
    unified ideographs have none. *)
Definition excerpt_decompose (c : N) : pystr :=
  if c =? 0xE9 then [0x65; 0x301]
  else if c =? 0xFC then [0x75; 0x308]
  else if c =? 0xF1 then [0x6E; 0x303]
  else if c =? 0xA0 then [0x20]
  else if c =? 0xFB01 then [0x66; 0x69]
  else [c].

Definition excerpt_nfkd (s : pystr) : pystr := flat_map excerpt_decompose s.

(** [repr] of the floats of the excerpt: zeros, infinities, NaN and the
    integral values below 1e16 ([1.0], [42.0]); other values are outside
    the excerpt and print as the empty string here. *)
Definition excerpt_float_repr (f : float) : pystr :=
  match Prim2SF f with
  | S754_zero false => lit "0.0"
  | S754_zero true => lit "-0.0"
  | S754_infinity false => lit "inf"
  | S754_infinity true => lit "-inf"
  | S754_nan => lit "nan"
  | S754_finite s m e =>
      let sign := if s then lit "-" else [] in
      if (0 <=? e)%Z then
        if (Z.pos m * 2 ^ e <? 10 ^ 16)%Z
        then sign ++ int_str (Z.pos m * 2 ^ e) ++ lit ".0" else []
      else if (Z.pos m mod 2 ^ (- e) =? 0)%Z
        then sign ++ int_str (Z.pos m / 2 ^ (- e)) ++ lit ".0" else []
  end.

Definition excerpt : pylib := PyLib excerpt_float_repr excerpt_nfkd excerpt_isalnum.

Definition cfg0 : settings :=
  script_settings (Some (lit "demo")) (Some (lit "key123")) (Some (lit "s3cret")).

Definition png : pybytes := map byte_of_N [0x89; 0x50; 0x4E; 0x47].

Definition hosted : pystr :=
  lit "https://res.cloudinary.com/demo/image/upload/v1/husq_parts/Red_Widget.png".

(** A world in which [http://x/a.png] exists, every other URL answers
    404, and the hosting service accepts every upload. *)
Definition world_of (df : table) : world :=
  {| read_excel := fun _ _ => inr df;
     http_get := fun _ url _ =>
       if bool_decide (url = lit "http://x/a.png")
       then inr (Response 200 (Some (lit "image/png")) png [] (inl []))
       else inr (Response 404 None [] (lit "Not Found") (inl []));
     http_post := fun _ _ _ => inr (Response 200 None [] [] (inr (Some (VStr hosted))));
     now := fun _ => 1700000000%Z |}.

Definition cols3 : list pystr := [lit "SKU"; lit "Image"; lit "Image Alt Text"].

(** Scenario A of the specification. *)
Definition row_a : list pyval :=
  [VStr (lit "ABC1"); VStr (lit "http://x/a.png"); VStr (lit "Red Widget!")].

(** A row whose image cannot be fetched. *)
Definition row_404 : list pyval :=
  [VStr (lit "ABC2"); VStr (lit "http://x/missing.png"); VNone].

(** A row without SKU. *)
Definition row_nosku : list pyval :=
  [VFloat PrimFloat.nan; VStr (lit "http://x/a.png"); VNone].

(** The table such a run works on. *)
Definition started_on (df : table) : option table := started cfg0 (world_of df).

End Examples.

(** ** Observations used by the further properties *)

(** Two underscores in a row somewhere in the string. *)
Fixpoint adjacent_underscores (s : pystr) : bool :=
  match s with
  | c :: (d :: _) as t => (is_underscore c && is_underscore d) || adjacent_underscores t
  | _ => false
  end.

(** What [to_public_id] removes or turns into an underscore: combining
    marks, characters outside [\w] and the hyphen, and underscores. *)
Definition vanishing (L : pylib) (c : N) : bool :=
  combining_mark c || non_word L c || is_underscore c.

(** A cell that reads as the empty string: missing, NaN, or text made
    of whitespace only. *)
Definition blank (L : pylib) (v : pyval) : bool :=
  isna v || forallb py_isspace (py_str L v).

(** The class [[0-9a-f]]. *)
Definition is_lower_hex (c : N) : bool :=
  ((48 <=? c) && (c <=? 57)) || ((97 <=? c) && (c <=? 102)).

(** The code points [str.encode("utf-8")] accepts. *)
Definition encodable (c : N) : bool :=
  negb ((0xD800 <=? c) && (c <=? 0xDFFF)) && (c <? 0x110000).

(** The fields the uploader signs, in alphabetical order of their names,
    with the values lines 71-78 give them. *)
Definition sign_fields (cfg : settings) (ts public_id : pystr) : list (pystr * pystr) :=
  [(lit "folder", CLD_FOLDER cfg);
   (lit "overwrite", lit "true");
   (lit "public_id", public_id);
   (lit "timestamp", ts);
   (lit "unique_filename", lit "false")].

Definition is_get (e : event) : bool :=
  match e with
  | EvGet _ _ => true
  | _ => false
  end.

Definition is_post (e : event) : bool :=
  match e with
  | EvPost _ _ => true
  | _ => false
  end.

Definition is_print (e : event) : bool :=
  match e with
  | EvPrint _ => true
  | _ => false
  end.

(** How many events of a kind a trace holds. *)
Definition count_events (kind : event -> bool) (tr : list event) : nat :=
  length (List.filter kind tr).

(** The upload endpoint of line 68. *)
Definition upload_endpoint (cfg : settings) : pystr :=
  lit "https://api.cloudinary.com/v1_1/" ++ getenv_str (CLOUD_NAME cfg) ++ lit "/image/upload".

(** The data URI of lines 64-66 for a fetched image. *)
Definition data_uri (resp : response) : pystr :=
  lit "data:" ++ default (lit "image/png") (content_type resp) ++ lit ";base64,"
  ++ Base64.b64encode (content resp).

(** Scenario A, continued: what is posted for it. *)
Module Scenario.

Definition sig_a : pystr := lit "76e746f5e6cb2ac08537efb5c3c2a4decc398912".

Definition payload_a : gmap pystr pyval :=
  upload_payload Examples.cfg0 (lit "data:image/png;base64,iVBORw==")
    (sign_params Examples.cfg0 (lit "1700000000") (lit "Red_Widget")) sig_a.

End Scenario.

(** A loop state followed by what a later stretch of the loop added. *)
Definition extend (st d : loop_state) : loop_state :=
  {| out_rows := out_rows st ++ out_rows d;
     attempted := (attempted st + attempted d)%nat;
     processed := (processed st + processed d)%nat;
     trace := trace st ++ trace d |}.

(** The spreadsheet row number a per-row log line names. *)
Definition message_row (m : message) : option nat :=
  match m with
  | MsgMissingSku n => Some n
  | MsgEmptyImage n _ => Some n
  | MsgRowDone n _ _ => Some n
  | MsgRowFailed n _ _ => Some n
  | _ => None
  end.

(** The per-row log lines of a trace. *)
Definition row_lines (tr : list event) : list message :=
  flat_map (fun e => match e with EvPrint m => [m] | _ => [] end) tr.

(** * Properties *)

(** ** The library models against known answers *)

(** FIPS 180 test vectors: one block, the empty message, two blocks. *)
Example sha1_abc :
  SHA1.hexdigest (map byte_of_N (lit "abc")) = lit "a9993e364706816aba3e25717850c26c9cd0d89d".
Proof. vm_compute. reflexivity. Qed.

Example sha1_empty :
  SHA1.hexdigest [] = lit "da39a3ee5e6b4b0d3255bfef95601890afd80709".
Proof. vm_compute. reflexivity. Qed.

Example sha1_two_blocks :
  SHA1.hexdigest
    (map byte_of_N (lit "abcdbcdecdefdefgefghfghighijhijkijkljklmklmnlmnomnopnopq"))
  = lit "84983e441c3bd26ebaae4aa1f95129e5e54670f1".
Proof. vm_compute. reflexivity. Qed.

(** RFC 4648 test vectors. *)
Example b64_vectors :
  map (fun s => Base64.b64encode (map byte_of_N (lit s))) ["f"; "fo"; "foo"; "foob"]%string
  = [lit "Zg=="; lit "Zm8="; lit "Zm9v"; lit "Zm9vYg=="].
Proof. vm_compute. reflexivity. Qed.

(** One, two, three and four byte encodings; a surrogate has none. *)
Example utf8_vectors :
  utf8_encode [0x41; 0xE9; 0x65E5; 0x1F600]
  = Some (map byte_of_N [0x41; 0xC3; 0xA9; 0xE6; 0x97; 0xA5; 0xF0; 0x9F; 0x98; 0x80])
  /\ utf8_encode [0xD800] = None.
Proof. split; vm_compute; reflexivity. Qed.

(** [str.replace] does not rescan what it inserted and takes
    occurrences without overlap. *)
Example replace_vectors :
  replace (lit "aa") (lit "b") (lit "aaaaa") = lit "bba"
  /\ replace (lit "a") (lit "aa") (lit "banana") = lit "baanaanaa".
Proof. split; vm_compute; reflexivity. Qed.

(** ** The order on strings *)

Lemma str_leb_refl (a : pystr) : str_leb a a = true.
Proof.
  induction a as [|x a IH]; simpl; [done|].
  rewrite N.ltb_irrefl. exact IH.
Qed.

#[global] Instance str_le_trans : Transitive str_le.
Proof.
  unfold Transitive, str_le. intros a.
  induction a as [|x a IH]; intros [|y b] [|z c]; simpl; try done.
  destruct (N.ltb_spec x y), (N.ltb_spec y x), (N.ltb_spec y z), (N.ltb_spec z y),
    (N.ltb_spec x z), (N.ltb_spec z x); try done; try lia.
  apply IH.
Qed.

#[global] Instance str_le_total : Total str_le.
Proof.
  unfold Total, str_le. intros a.
  induction a as [|x a IH]; intros [|y b]; simpl; auto.
  destruct (N.ltb_spec x y), (N.ltb_spec y x); auto; lia.
Qed.

#[global] Instance str_le_antisym : AntiSymm (=) str_le.
Proof.
  unfold AntiSymm, str_le. intros a.
  induction a as [|x a IH]; intros [|y b]; simpl; try done.
  destruct (N.ltb_spec x y), (N.ltb_spec y x); try done; try lia.
  intros H1 H2. f_equal; [lia | by apply IH].
Qed.

(** ** Sorting and filtering *)

Lemma StronglySorted_list_filter {A} (R : relation A) (f : A -> bool) (l : list A) :
  StronglySorted R l -> StronglySorted R (List.filter f l).
Proof.
  induction 1 as [|x l Hl IH Hx]; simpl; [constructor|].
  destruct (f x); [|exact IH].
  constructor; [exact IH|].
  rewrite List.Forall_forall in *. intros y Hy.
  apply Hx. apply List.filter_In in Hy. tauto.
Qed.

Lemma elem_of_list_filter_bool {A} (f : A -> bool) (l : list A) (x : A) :
  x ∈ List.filter f l <-> x ∈ l /\ f x = true.
Proof. rewrite !list_elem_of_In. apply List.filter_In. Qed.

Lemma NoDup_list_filter_bool {A} (f : A -> bool) (l : list A) :
  NoDup l -> NoDup (List.filter f l).
Proof.
  induction 1 as [|x l Hx Hl IH]; simpl; [constructor|].
  destruct (f x); [|exact IH].
  constructor; [|exact IH].
  rewrite elem_of_list_filter_bool. tauto.
Qed.

Lemma elem_of_map_keys {V} (m : gmap pystr V) (k : pystr) :
  k ∈ map fst (map_to_list m) <-> is_Some (m !! k).
Proof.
  change (map fst (map_to_list m)) with ((map_to_list m).*1).
  rewrite list_elem_of_fmap. split.
  - intros [[k' v] [-> Hin]]. apply elem_of_map_to_list in Hin. eauto.
  - intros [v Hv]. exists (k, v). split; [done|]. by apply elem_of_map_to_list.
Qed.

Lemma elem_of_sorted_keys (params : gmap pystr pyval) (k : pystr) :
  k ∈ sorted_keys params <-> is_Some (params !! k).
Proof.
  unfold sorted_keys. rewrite merge_sort_Permutation. apply elem_of_map_keys.
Qed.

Lemma NoDup_sorted_keys (params : gmap pystr pyval) : NoDup (sorted_keys params).
Proof.
  unfold sorted_keys. rewrite merge_sort_Permutation.
  apply (NoDup_fst_map_to_list params).
Qed.

Lemma signable_equal_dropped (v : pyval) : signable v = negb (equal_dropped v).
Proof. reflexivity. Qed.

(** A key is signed exactly when the dictionary holds a value for it that
    equals none of [None], [''], [False]. *)
Lemma elem_of_signed_keys (params : gmap pystr pyval) (k : pystr) :
  k ∈ signed_keys params <-> exists v, params !! k = Some v /\ signable v = true.
Proof.
  unfold signed_keys. rewrite elem_of_list_filter_bool, elem_of_sorted_keys.
  unfold param_at. split.
  - intros [[v Hv] Hs]. rewrite Hv in Hs. eauto.
  - intros (v & Hv & Hs). rewrite Hv. eauto.
Qed.

(** Filtering the sorted keys gives the sorted keys of the filtered
    dictionary. *)
Lemma signed_keys_filter (params : gmap pystr pyval) :
  signed_keys params
  = merge_sort str_le
      (map fst (map_to_list
         (filter (fun kv : pystr * pyval => equal_dropped kv.2 = false) params))).
Proof.
  apply (StronglySorted_unique str_le).
  - apply StronglySorted_list_filter, StronglySorted_merge_sort; apply _.
  - apply StronglySorted_merge_sort; apply _.
  - apply NoDup_Permutation.
    + apply NoDup_list_filter_bool, NoDup_sorted_keys.
    + rewrite merge_sort_Permutation.
      apply (NoDup_fst_map_to_list
               (filter (fun kv : pystr * pyval => equal_dropped kv.2 = false) params)).
    + intros k. rewrite elem_of_signed_keys, merge_sort_Permutation, elem_of_map_keys.
      split.
      * intros (v & Hv & Hs). exists v. apply map_lookup_filter_Some. split; [done|].
        simpl. rewrite signable_equal_dropped in Hs. by destruct (equal_dropped v).
      * intros [v Hv]. apply map_lookup_filter_Some in Hv as [Hv Hd]. simpl in Hd.
        exists v. split; [done|]. rewrite signable_equal_dropped. by rewrite Hd.
Qed.

(** The source's string to sign is the canonical string for the class of
    values equal to [None], [''] or [False]. *)
Lemma to_sign_canonical (L : pylib) (params : gmap pystr pyval) (secret : pystr) :
  to_sign L params secret = canonical_string L equal_dropped params secret.
Proof.
  unfold to_sign, canonical_string. rewrite signed_keys_filter.
  f_equal. f_equal. apply List.map_ext_in. intros k Hk.
  apply list_elem_of_In in Hk. rewrite merge_sort_Permutation in Hk.
  apply elem_of_map_keys in Hk as [v Hv].
  unfold param_at. rewrite Hv.
  apply map_lookup_filter_Some in Hv as [Hv _]. by rewrite Hv.
Qed.

(** C1 (as amended).  For every parameter map and secret, [cld_signature]
    returns the SHA-1 hex digest of the UTF-8 bytes of the string formed by
    dropping the parameters whose value equals [None], [''] or [False]
    under Python's [==] (which also drops numeric zero), sorting the
    remaining names, joining them as [key=value] with [&] and appending the
    raw secret; when that string has no UTF-8 encoding (a lone surrogate)
    the call raises instead. *)
Theorem cld_signature_canonical (L : pylib) (params : gmap pystr pyval) (secret : pystr) :
  cld_signature L params secret
  = SHA1.hexdigest <$> utf8_encode (canonical_string L equal_dropped params secret).
Proof. unfold cld_signature. by rewrite to_sign_canonical. Qed.

(** C1 as stated fails: with the single parameter [a = 0] (an int) and the
    secret [s], the source hashes [s] alone, whereas dropping only empty,
    null and boolean-false values would hash [a=0s]. *)
Lemma cld_signature_zero_counterexample :
  let params : gmap pystr pyval := <[lit "a" := VInt 0]> ∅ in
  to_sign Examples.excerpt params (lit "s") = lit "s"
  /\ canonical_string Examples.excerpt stated_dropped params (lit "s") = lit "a=0s"
  /\ cld_signature Examples.excerpt params (lit "s")
     = Some (lit "a0f1490a20d0211c997b44bc357e1972deab8ae3")
  /\ stated_signature Examples.excerpt params (lit "s")
     = Some (lit "b51b882a1507afb76fd714bd919e9838284aeee3")
  /\ cld_signature Examples.excerpt params (lit "s")
     <> stated_signature Examples.excerpt params (lit "s").
Proof.
  cbv zeta. repeat split; try (vm_compute; reflexivity).
  vm_compute. discriminate.
Qed.

(** A parameter whose value equals [None], [''] or [False] contributes
    nothing: the string to sign is that of the dictionary without it, and
    that of the dictionary holding any other such value in its place. *)
Lemma dropped_value_excluded (L : pylib) (params : gmap pystr pyval) (k : pystr)
    (v w : pyval) (secret : pystr) :
  params !! k = Some v -> equal_dropped v = true -> equal_dropped w = true ->
  to_sign L params secret = to_sign L (delete k params) secret
  /\ to_sign L params secret = to_sign L (<[k := w]> params) secret.
Proof.
  intros Hk Hv Hw. rewrite !to_sign_canonical. unfold canonical_string.
  assert (Hdel : filter (fun kv : pystr * pyval => equal_dropped kv.2 = false)
                        (delete k params)
                 = filter (fun kv : pystr * pyval => equal_dropped kv.2 = false) params).
  { apply map_filter_delete_not. intros y Hy. simpl.
    rewrite Hk in Hy. injection Hy as <-. by rewrite Hv. }
  split.
  - by rewrite Hdel.
  - rewrite map_filter_insert_False; [by rewrite Hdel|].
    simpl. by rewrite Hw.
Qed.

(** C8.  A parameter whose value is the integer [0] or the float [0.0] is
    left out of the string to sign exactly as if its value were [False]:
    the value equals [False], its key is not among the signed keys, and
    the string (hence the signature) is that of the dictionary without the
    parameter and that of the dictionary with [False] in its place. *)
Theorem zero_excluded_like_false (L : pylib) (params : gmap pystr pyval) (k : pystr)
    (v : pyval) (secret : pystr) :
  params !! k = Some v ->
  v = VInt 0 \/ v = VFloat 0%float ->
  py_eq v (VBool false) = true
  /\ (k ∉ signed_keys params)
  /\ to_sign L params secret = to_sign L (delete k params) secret
  /\ to_sign L params secret = to_sign L (<[k := VBool false]> params) secret
  /\ cld_signature L params secret = cld_signature L (<[k := VBool false]> params) secret.
Proof.
  intros Hk Hv.
  assert (Heq : py_eq v (VBool false) = true) by (destruct Hv as [-> | ->]; reflexivity).
  assert (Hd : equal_dropped v = true).
  { unfold equal_dropped, py_in. simpl. rewrite Heq. by rewrite !orb_true_r. }
  destruct (dropped_value_excluded L params k v (VBool false) secret Hk Hd eq_refl)
    as [Hdel Hins].
  split; [exact Heq|]. split.
  - rewrite elem_of_signed_keys. intros (v' & Hv' & Hs).
    rewrite Hk in Hv'. injection Hv' as <-.
    rewrite signable_equal_dropped, Hd in Hs. discriminate.
  - split; [exact Hdel|]. split; [exact Hins|].
    unfold cld_signature. by rewrite Hins.
Qed.

Lemma zero_excluded_like_false_witness :
  let params : gmap pystr pyval :=
    <[lit "quality" := VInt 0]> (<[lit "folder" := VStr (lit "husq_parts")]> ∅) in
  to_sign Examples.excerpt params (lit "s3cret")
  = to_sign Examples.excerpt (<[lit "quality" := VBool false]> params) (lit "s3cret").
Proof.
  cbv zeta.
  exact (proj1 (proj2 (proj2 (proj2
    (zero_excluded_like_false Examples.excerpt
       (<[lit "quality" := VInt 0]> (<[lit "folder" := VStr (lit "husq_parts")]> ∅))
       (lit "quality") (VInt 0) (lit "s3cret") eq_refl (or_introl eq_refl)))))).
Defined.

(** The same at the float [0.0], evaluated. *)
Example float_zero_not_signed :
  to_sign Examples.excerpt
    (<[lit "quality" := VFloat 0%float]> (<[lit "folder" := VStr (lit "husq_parts")]> ∅))
    (lit "s3cret")
  = lit "folder=husq_partss3cret".
Proof. vm_compute. reflexivity. Qed.

(** ** The identifier sanitizer *)

Lemma Forall_lstrip (P : N -> Prop) (p : N -> bool) (s : pystr) :
  Forall P s -> Forall P (lstrip p s).
Proof.
  induction 1 as [|c s Hc Hs IH]; simpl; [constructor|].
  destruct (p c); [exact IH | by constructor].
Qed.

Lemma Forall_strip (P : N -> Prop) (p : N -> bool) (s : pystr) :
  Forall P s -> Forall P (strip p s).
Proof.
  intros H. unfold strip, rstrip.
  apply Forall_rev, Forall_lstrip, Forall_rev, Forall_lstrip, H.
Qed.

(** Every character left by [re.sub(cls+, "_", s)] is an underscore or
    lies outside the class. *)
Lemma sub_runs_chars (bad : N -> bool) (b : bool) (s : pystr) :
  Forall (fun c => c = underscore \/ bad c = false) (sub_runs bad b s).
Proof.
  revert b. induction s as [|c s IH]; intros b; simpl; [constructor|].
  destruct (bad c) eqn:Hc.
  - destruct b; [apply IH | constructor; [by left | apply IH]].
  - constructor; [by right | apply IH].
Qed.

Lemma Forall_sub_runs (P : N -> Prop) (bad : N -> bool) (b : bool) (s : pystr) :
  P underscore -> Forall P s -> Forall P (sub_runs bad b s).
Proof.
  intros Hu H. revert b. induction H as [|c s Hc Hs IH]; intros b; simpl; [constructor|].
  destruct (bad c); [destruct b|]; auto.
Qed.

(** Characters outside the class are copied. *)
Lemma sub_runs_keep (bad : N -> bool) (good rest : pystr) :
  Forall (fun c => bad c = false) good ->
  sub_runs bad false (good ++ rest) = good ++ sub_runs bad false rest.
Proof.
  induction 1 as [|c s Hc Hs IH]; simpl; [done|].
  rewrite Hc. by rewrite IH.
Qed.

(** Inside a run, further characters of the class produce nothing. *)
Lemma sub_runs_swallow (bad : N -> bool) (run rest : pystr) :
  Forall (fun c => bad c = true) run ->
  sub_runs bad true (run ++ rest) = sub_runs bad true rest.
Proof.
  induction 1 as [|c s Hc Hs IH]; simpl; [done|].
  by rewrite Hc.
Qed.

Lemma sub_runs_after_run (bad : N -> bool) (rest : pystr) :
  run_ends bad rest -> sub_runs bad true rest = sub_runs bad false rest.
Proof. destruct rest as [|c rest]; simpl; [done|]. by intros ->. Qed.

(** A maximal run of the class becomes exactly one underscore. *)
Lemma sub_runs_maximal_run (bad : N -> bool) (good run rest : pystr) :
  Forall (fun c => bad c = false) good ->
  run <> [] -> Forall (fun c => bad c = true) run ->
  run_ends bad rest ->
  sub_runs bad false (good ++ run ++ rest) = good ++ underscore :: sub_runs bad false rest.
Proof.
  intros Hgood Hne Hrun Hend. rewrite sub_runs_keep by done. f_equal.
  destruct run as [|c run]; [done|].
  inversion Hrun as [|? ? Hc Hrun']; subst. simpl. rewrite Hc. f_equal.
  rewrite sub_runs_swallow by done. by apply sub_runs_after_run.
Qed.

(** C2 (as amended).  For every input string the sanitizer's output
    contains only word characters in the sense of the regular expression
    class [\w] (alphanumeric in any script, or underscore) and hyphens;
    and the substitution step replaces every maximal run of characters
    that are neither by a single underscore, before underscores are
    collapsed and trimmed. *)
Theorem to_public_id_charset (L : pylib) (s : pystr) :
  Forall (fun c => is_word L c || (c =? hyphen) = true) (to_public_id L s)
  /\ to_public_id L s
     = strip is_underscore
         (sub_runs is_underscore false
            (sub_runs (non_word L) false
               (List.filter (fun c => negb (combining_mark c)) (nfkd L s))))
  /\ forall good run rest : pystr,
       Forall (fun c => non_word L c = false) good ->
       run <> [] -> Forall (fun c => non_word L c = true) run ->
       run_ends (non_word L) rest ->
       sub_runs (non_word L) false (good ++ run ++ rest)
       = good ++ underscore :: sub_runs (non_word L) false rest.
Proof.
  split; [|split; [reflexivity|]].
  - unfold to_public_id. apply Forall_strip, Forall_sub_runs.
    + unfold is_word. rewrite N.eqb_refl. by rewrite orb_true_r.
    + eapply Forall_impl; [apply sub_runs_chars|].
      intros c [-> | Hc]; simpl.
      * unfold is_word. rewrite N.eqb_refl. by rewrite orb_true_r.
      * unfold non_word in Hc. by apply negb_false_iff in Hc.
  - intros good run rest. apply sub_runs_maximal_run.
Qed.

Lemma to_public_id_charset_witness :
  sub_runs (non_word Examples.excerpt) false (lit "Red" ++ lit " !" ++ lit "Widget")
  = lit "Red" ++ underscore :: sub_runs (non_word Examples.excerpt) false (lit "Widget").
Proof.
  apply (proj2 (proj2 (to_public_id_charset Examples.excerpt []))).
  - repeat constructor.
  - discriminate.
  - repeat constructor.
  - reflexivity.
Defined.

(** C2 as stated fails: an ideograph is a word character, so it passes
    through the sanitizer although it is outside [[A-Za-z0-9_-]]. *)
Lemma to_public_id_ascii_counterexample :
  to_public_id Examples.excerpt [0x65E5; 0x672C; 0x20; 0x31] = [0x65E5; 0x672C; 0x5F; 0x31]
  /\ forallb ascii_id_char (to_public_id Examples.excerpt [0x65E5; 0x672C; 0x20; 0x31]) = false.
Proof. split; vm_compute; reflexivity. Qed.

(** The same for any library in which U+65E5 is alphanumeric and is its
    own NFKD form, as it is in the Unicode character database. *)
Lemma to_public_id_ideograph (L : pylib) :
  isalnum L 0x65E5 = true -> nfkd L [0x65E5] = [0x65E5] ->
  to_public_id L [0x65E5] = [0x65E5] /\ ascii_id_char 0x65E5 = false.
Proof.
  intros Ha Hn. split; [|reflexivity].
  unfold to_public_id. rewrite Hn. simpl.
  unfold non_word, is_word. rewrite Ha. reflexivity.
Qed.

(** Scenario A of the specification. *)
Example to_public_id_red_widget :
  to_public_id Examples.excerpt (lit "Red Widget!") = lit "Red_Widget".
Proof. vm_compute. reflexivity. Qed.

(** ** The URL transformer *)

Lemma replace_go_skip (old new : pystr) (k : nat) (s : pystr) :
  replace_go old new k s = replace_go old new 0 (drop k s).
Proof.
  revert k. induction s as [|c s IH]; intros [|k]; simpl; auto.
Qed.

(** [replace] in terms of [find]: nothing changes without an occurrence;
    otherwise the first occurrence is replaced and the scan resumes
    behind it. *)
Lemma replace_go_find (old new s : pystr) :
  old <> [] ->
  match str_find old s with
  | None => replace_go old new 0 s = s
  | Some i =>
      replace_go old new 0 s
      = take i s ++ new ++ replace_go old new 0 (drop (i + length old) s)
  end.
Proof.
  intros Hold. induction s as [|c s IH].
  - simpl. by rewrite bool_decide_eq_false_2.
  - cbn [str_find replace_go].
    destruct (bool_decide (take (length old) (c :: s) = old)) eqn:Hm.
    + rewrite replace_go_skip. destruct old as [|o old]; [done|].
      cbn [length]. rewrite Nat.sub_succ, Nat.sub_0_r. reflexivity.
    + destruct (str_find old s) as [i|]; simpl.
      * by rewrite IH.
      * by rewrite IH.
Qed.

Lemma str_find_Some (old s : pystr) (i : nat) :
  str_find old s = Some i -> take (i + length old) s = take i s ++ old.
Proof.
  revert i. induction s as [|c s IH]; intros i; cbn [str_find].
  - case_bool_decide; [|done]. intros [= <-]. by subst.
  - case_bool_decide as Hm.
    + intros [= <-]. exact Hm.
    + destruct (str_find old s) as [j|]; simpl; [|done].
      intros [= <-]. simpl. f_equal. by apply IH.
Qed.

(** [find] answers [None] only when there is no occurrence at all. *)
Lemma str_find_None (old s pre post : pystr) :
  str_find old s = None -> s <> pre ++ old ++ post.
Proof.
  revert pre. induction s as [|c s IH]; intros pre; cbn [str_find].
  - case_bool_decide as Hm; [done|]. intros _ Heq.
    destruct pre; destruct old; simpl in *; done.
  - case_bool_decide as Hm; [done|].
    destruct (str_find old s) eqn:Hf; simpl; [done|]. intros _ Heq.
    destruct pre as [|p pre].
    + apply Hm. simpl in Heq. rewrite Heq. by rewrite take_app_length.
    + simpl in Heq. injection Heq as _ Heq. by apply (IH pre).
Qed.

(** C3 (as amended).  A URL that does not contain [/upload/] is returned
    unchanged.  Otherwise the descriptor is inserted as a new path segment
    immediately after the first occurrence of the marker and the rest of
    the URL behind that occurrence is transformed in the same way; so when
    the rest contains no further marker (in particular when the marker
    occurs once) the descriptor is inserted there and nowhere else,
    whatever the descriptor contains. *)
Theorem cld_transform_url_first_marker (L : pylib) (url t : pystr) :
  match str_find upload_marker url with
  | None => cld_transform_url L (VStr url) t = url
  | Some i =>
      cld_transform_url L (VStr url) t
      = take (i + 8) url ++ t ++ lit "/" ++ cld_transform_url L (VStr (drop (i + 8) url)) t
      /\ (str_find upload_marker (drop (i + 8) url) = None ->
          cld_transform_url L (VStr url) t
          = take (i + 8) url ++ t ++ lit "/" ++ drop (i + 8) url)
  end.
Proof.
  unfold cld_transform_url. cbn [py_str].
  change (replace upload_marker ?n ?s) with (replace_go upload_marker n 0 s).
  pose proof (replace_go_find upload_marker
                (lit "/upload/" ++ t ++ lit "/") url) as Hurl.
  destruct (str_find upload_marker url) as [i|] eqn:Hf.
  - assert (Hfirst : replace_go upload_marker (lit "/upload/" ++ t ++ lit "/") 0 url
             = take (i + 8) url ++ t ++ lit "/"
               ++ replace_go upload_marker (lit "/upload/" ++ t ++ lit "/") 0
                    (drop (i + 8) url)).
    { rewrite Hurl by done. apply str_find_Some in Hf.
      change (length upload_marker) with 8%nat in *. rewrite Hf.
      by rewrite <- !app_assoc. }
    split; [exact Hfirst|].
    intros Hrest. rewrite Hfirst. do 3 f_equal.
    pose proof (replace_go_find upload_marker
                  (lit "/upload/" ++ t ++ lit "/") (drop (i + 8) url)) as Hr.
    rewrite Hrest in Hr. by apply Hr.
  - by apply Hurl.
Qed.

Lemma cld_transform_url_first_marker_witness :
  cld_transform_url Examples.excerpt
    (VStr (lit "https://res.cloudinary.com/demo/image/upload/v1/a.png"))
    (lit "w_80/upload/")
  = lit "https://res.cloudinary.com/demo/image/upload/w_80/upload//v1/a.png".
Proof.
  exact (proj2 (cld_transform_url_first_marker Examples.excerpt
                  (lit "https://res.cloudinary.com/demo/image/upload/v1/a.png")
                  (lit "w_80/upload/")) eq_refl).
Defined.

(** C3 as stated fails: in a URL with two markers the descriptor is
    inserted twice, so the result is not the URL with a single insertion
    behind a marker. *)
Lemma cld_transform_url_twice_counterexample :
  str_find upload_marker (lit "a/upload/b/upload/c") = Some 1%nat
  /\ cld_transform_url Examples.excerpt (VStr (lit "a/upload/b/upload/c")) (lit "T")
     = lit "a/upload/T/b/upload/T/c"
  /\ ~ (exists pre post : pystr,
          lit "a/upload/b/upload/c" = pre ++ upload_marker ++ post
          /\ cld_transform_url Examples.excerpt (VStr (lit "a/upload/b/upload/c")) (lit "T")
             = pre ++ upload_marker ++ lit "T" ++ lit "/" ++ post).
Proof.
  split; [reflexivity|]. split; [reflexivity|].
  intros (pre & post & Hurl & Hres).
  apply (f_equal length) in Hurl. apply (f_equal length) in Hres.
  rewrite !length_app in Hurl, Hres.
  change (length (cld_transform_url Examples.excerpt
                    (VStr (lit "a/upload/b/upload/c")) (lit "T"))) with 23%nat in Hres.
  change (length (lit "a/upload/b/upload/c")) with 19%nat in Hurl.
  change (length upload_marker) with 8%nat in *. simpl in Hres. lia.
Qed.

(** ** The row loop *)

Lemma upload_events_requests (L : pylib) (cfg : settings) (W : world) (i : nat)
    (remote_url public_id : pystr) (referer : option pystr) :
  Forall (fun e => is_request e = true)
         (upload_to_cloudinary L cfg W i remote_url public_id referer).1.
Proof.
  unfold upload_to_cloudinary. repeat case_match; simpl; repeat constructor.
Qed.

Lemma request_not_sleep (e : event) : is_request e = true -> is_sleep e = false.
Proof. by destruct e. Qed.

Lemma request_not_write (e : event) : is_request e = true -> is_write e = false.
Proof. by destruct e. Qed.

Lemma sleeps_app (a b : list event) : sleeps (a ++ b) = (sleeps a + sleeps b)%nat.
Proof. unfold sleeps. by rewrite List.filter_app, length_app. Qed.

Lemma sleeps_requests (evs : list event) :
  Forall (fun e => is_request e = true) evs -> sleeps evs = 0%nat.
Proof.
  unfold sleeps. induction 1 as [|e evs He _ IH]; simpl; [done|].
  by rewrite (request_not_sleep e He).
Qed.

(** What one iteration appends to the trace. *)
Lemma process_row_trace (L : pylib) (cfg : settings) (W : world) (cols : list pystr)
    (st : loop_state) (idx : nat) (row : list pyval) :
  match check_row L cols row with
  | Ready sku img_url =>
      exists evs m,
        trace (process_row L cfg W cols st idx row)
        = trace st ++ evs ++ [EvPrint m; EvSleep (THROTTLE_SEC cfg)]
        /\ Forall (fun e => is_request e = true) evs
        /\ attempted (process_row L cfg W cols st idx row) = S (attempted st)
  | _ =>
      exists m,
        trace (process_row L cfg W cols st idx row) = trace st ++ [EvPrint m]
        /\ attempted (process_row L cfg W cols st idx row) = attempted st
  end.
Proof.
  unfold process_row. destruct (check_row L cols row) as [|sku|sku img]; simpl; eauto.
  pose proof (upload_events_requests L cfg W idx img
                (row_public_id L cfg cols row sku) (row_referer L cols row)) as Hev.
  unfold attempt_row.
  destruct (upload_to_cloudinary L cfg W idx img (row_public_id L cfg cols row sku)
              (row_referer L cols row)) as [evs [e | base_url]]; simpl in *; eauto.
Qed.

(** A property of the loop state that every iteration preserves holds
    after any number of iterations. *)
Lemma loop_from_invariant (L : pylib) (cfg : settings) (W : world) (cols : list pystr)
    (P : loop_state -> Prop) :
  (forall st idx row, P st -> P (process_row L cfg W cols st idx row)) ->
  forall todo idx st, P st -> P (loop_from L cfg W cols idx todo st).
Proof.
  intros Hstep todo. induction todo as [|row todo IH]; intros idx st Hst; simpl; auto.
Qed.

(** The state at a point of the run is the state after a prefix of the
    rows: the remaining iterations start from it. *)
Lemma loop_from_app (L : pylib) (cfg : settings) (W : world) (cols : list pystr)
    (done todo : list (list pyval)) (idx : nat) (st : loop_state) :
  loop_from L cfg W cols idx (done ++ todo) st
  = loop_from L cfg W cols (idx + length done) todo (loop_from L cfg W cols idx done st).
Proof.
  revert idx st. induction done as [|row done IH]; intros idx st; simpl.
  - by rewrite Nat.add_0_r.
  - rewrite IH. by rewrite Nat.add_succ_r.
Qed.

Lemma process_row_sleeps (L : pylib) (cfg : settings) (W : world) (cols : list pystr)
    (st : loop_state) (idx : nat) (row : list pyval) :
  sleeps (trace st) = attempted st ->
  sleeps (trace (process_row L cfg W cols st idx row))
  = attempted (process_row L cfg W cols st idx row).
Proof.
  intros Hst. pose proof (process_row_trace L cfg W cols st idx row) as H.
  destruct (check_row L cols row).
  - destruct H as (m & -> & ->). rewrite sleeps_app, Hst. unfold sleeps. simpl. lia.
  - destruct H as (m & -> & ->). rewrite sleeps_app, Hst. unfold sleeps. simpl. lia.
  - destruct H as (evs & m & -> & Hev & ->).
    rewrite !sleeps_app, Hst, (sleeps_requests evs Hev). unfold sleeps. simpl. lia.
Qed.

(** C4 (as amended).  A row that reaches the upload attempt, whether the
    attempt succeeds or raises, ends with one sleep of the throttle
    interval, after its requests and its log line; a row skipped for a
    missing SKU or Image prints its log line and does not sleep.  Over a
    whole run the number of sleeps is the number of attempted rows. *)
Theorem throttle_after_attempts (L : pylib) (cfg : settings) (W : world) :
  (forall (cols : list pystr) (st : loop_state) (idx : nat) (row : list pyval),
     match check_row L cols row with
     | Ready sku img_url =>
         exists evs m,
           trace (process_row L cfg W cols st idx row)
           = trace st ++ evs ++ [EvPrint m; EvSleep (THROTTLE_SEC cfg)]
           /\ sleeps evs = 0%nat
     | _ =>
         exists m, trace (process_row L cfg W cols st idx row) = trace st ++ [EvPrint m]
     end)
  /\ (forall df : table, sleeps (trace (loop L cfg W df)) = attempted (loop L cfg W df)).
Proof.
  split.
  - intros cols st idx row.
    pose proof (process_row_trace L cfg W cols st idx row) as H.
    destruct (check_row L cols row).
    + destruct H as (m & H & _). eauto.
    + destruct H as (m & H & _). eauto.
    + destruct H as (evs & m & H & Hev & _). exists evs, m.
      split; [exact H | by apply sleeps_requests].
  - intros df. unfold loop.
    apply (loop_from_invariant L cfg W (columns df)
             (fun st => sleeps (trace st) = attempted st)); [|reflexivity].
    intros st idx row. apply process_row_sleeps.
Qed.

(** C4 as stated fails: a table whose only row has no SKU is processed
    without any sleep. *)
Lemma skipped_row_no_sleep_counterexample :
  let df := Table Examples.cols3 [Examples.row_nosku] in
  length (rows df) = 1%nat
  /\ Examples.started_on df = Some df
  /\ main Examples.excerpt Examples.cfg0 (Examples.world_of df)
     = [EvPrint (MsgMissingSku 2); EvPrint MsgNothing]
  /\ sleeps (main Examples.excerpt Examples.cfg0 (Examples.world_of df)) = 0%nat.
Proof. cbv zeta. repeat split; vm_compute; reflexivity. Qed.

Lemma process_row_counters (L : pylib) (cfg : settings) (W : world) (cols : list pystr)
    (st : loop_state) (idx : nat) (row : list pyval) :
  processed st = length (out_rows st) /\ (processed st <= attempted st)%nat ->
  processed (process_row L cfg W cols st idx row)
  = length (out_rows (process_row L cfg W cols st idx row))
  /\ (processed (process_row L cfg W cols st idx row)
      <= attempted (process_row L cfg W cols st idx row))%nat.
Proof.
  intros [Hlen Hle]. unfold process_row.
  destruct (check_row L cols row) as [|sku|sku img]; simpl; [done..|].
  destruct (attempt_row L cfg W cols idx row sku img) as [evs [e | base_url]]; simpl.
  - split; [done | lia].
  - rewrite length_app. simpl. split; lia.
Qed.

Lemma loop_from_counters (L : pylib) (cfg : settings) (W : world) (cols : list pystr)
    (todo : list (list pyval)) :
  processed (loop_from L cfg W cols 0 todo loop_init)
  = length (out_rows (loop_from L cfg W cols 0 todo loop_init))
  /\ (processed (loop_from L cfg W cols 0 todo loop_init)
      <= attempted (loop_from L cfg W cols 0 todo loop_init))%nat.
Proof.
  apply (loop_from_invariant L cfg W cols
           (fun st => processed st = length (out_rows st)
                      /\ (processed st <= attempted st)%nat)).
  - intros st idx row. apply process_row_counters.
  - simpl. split; [reflexivity | lia].
Qed.

(** C9.  After any number of iterations the processed counter equals the
    length of the accumulated output rows and is at most the attempted
    counter; an iteration whose upload raises increments attempted and
    leaves processed and the output rows as they were. *)
Theorem counters_invariant (L : pylib) (cfg : settings) (W : world) :
  (forall (df : table) (k : nat),
     let st := loop_from L cfg W (columns df) 0 (take k (rows df)) loop_init in
     processed st = length (out_rows st) /\ (processed st <= attempted st)%nat)
  /\ (forall (cols : list pystr) (st : loop_state) (idx : nat) (row : list pyval)
        (sku img_url : pystr) (evs : list event) (e : exn),
        check_row L cols row = Ready sku img_url ->
        attempt_row L cfg W cols idx row sku img_url = (evs, inl e) ->
        attempted (process_row L cfg W cols st idx row) = S (attempted st)
        /\ processed (process_row L cfg W cols st idx row) = processed st
        /\ out_rows (process_row L cfg W cols st idx row) = out_rows st).
Proof.
  split.
  - intros df k. cbv zeta. apply loop_from_counters.
  - intros cols st idx row sku img evs e Hc Ha. unfold process_row.
    rewrite Hc, Ha. simpl. auto.
Qed.

Lemma counters_invariant_witness :
  let W := Examples.world_of (Table Examples.cols3 [Examples.row_404]) in
  attempted (process_row Examples.excerpt Examples.cfg0 W Examples.cols3 loop_init 0
               Examples.row_404) = 1%nat
  /\ processed (process_row Examples.excerpt Examples.cfg0 W Examples.cols3 loop_init 0
                  Examples.row_404) = 0%nat
  /\ out_rows (process_row Examples.excerpt Examples.cfg0 W Examples.cols3 loop_init 0
                 Examples.row_404) = [].
Proof.
  cbv zeta.
  eapply (proj2 (counters_invariant Examples.excerpt Examples.cfg0
                   (Examples.world_of (Table Examples.cols3 [Examples.row_404])))
            Examples.cols3 loop_init 0%nat Examples.row_404
            (lit "ABC2") (lit "http://x/missing.png")).
  - vm_compute. reflexivity.
  - vm_compute. reflexivity.
Defined.

(** ** The written table *)

Lemma has_column_app (cols : list pystr) (a b : pystr) :
  a <> b -> has_column (cols ++ [a]) b = has_column cols b.
Proof.
  intros Hab. unfold has_column. apply bool_decide_ext.
  rewrite elem_of_app, list_elem_of_singleton. split; [|tauto].
  intros [H | H]; [exact H | congruence].
Qed.

(** The loop of lines 171-173 appends the extra columns that the source
    columns lack, in their order. *)
Lemma all_cols_filter (source_cols : list pystr) :
  all_cols source_cols
  = source_cols ++ List.filter (fun c => negb (has_column source_cols c)) extra_cols.
Proof.
  unfold all_cols, extra_cols. cbn [fold_left List.filter].
  destruct (has_column source_cols (lit "Variant SKU")) eqn:Hv; cbn [negb].
  - destruct (has_column source_cols (lit "Image Src")); cbn [negb];
      [by rewrite app_nil_r | done].
  - rewrite has_column_app by (vm_compute; discriminate).
    destruct (has_column source_cols (lit "Image Src")); cbn [negb];
      [done | by rewrite <- app_assoc].
Qed.

Lemma process_row_no_write (L : pylib) (cfg : settings) (W : world) (cols : list pystr)
    (st : loop_state) (idx : nat) (row : list pyval) :
  Forall (fun e => is_write e = false) (trace st) ->
  Forall (fun e => is_write e = false) (trace (process_row L cfg W cols st idx row)).
Proof.
  intros Hst. pose proof (process_row_trace L cfg W cols st idx row) as H.
  destruct (check_row L cols row).
  - destruct H as (m & -> & _). apply Forall_app. split; [done | by repeat constructor].
  - destruct H as (m & -> & _). apply Forall_app. split; [done | by repeat constructor].
  - destruct H as (evs & m & -> & Hev & _). rewrite !Forall_app. split; [done|].
    split; [|by repeat constructor].
    eapply Forall_impl; [exact Hev | apply request_not_write].
Qed.

(** The loop itself writes nothing. *)
Lemma loop_no_write (L : pylib) (cfg : settings) (W : world) (df : table) :
  Forall (fun e => is_write e = false) (trace (loop L cfg W df)).
Proof.
  unfold loop.
  apply (loop_from_invariant L cfg W (columns df)
           (fun st => Forall (fun e => is_write e = false) (trace st))).
  - intros st idx row. apply process_row_no_write.
  - constructor.
Qed.

(** A run that gets to the loop is the loop followed by lines 166-182; any
    other run prints one error line. *)
Lemma main_started (L : pylib) (cfg : settings) (W : world) :
  match started cfg W with
  | Some df =>
      read_excel W (SOURCE_XLSX cfg) (SOURCE_SHEET cfg) = inr df
      /\ main L cfg W = trace (loop L cfg W df) ++ finish cfg (columns df) (loop L cfg W df)
  | None => exists m, main L cfg W = [EvPrint m]
  end.
Proof.
  unfold started, main.
  destruct (credential_set (CLOUD_NAME cfg) && credential_set (CLOUD_API_KEY cfg)
            && credential_set (CLOUD_API_SECRET cfg)); simpl; [|eauto].
  destruct (read_excel W (SOURCE_XLSX cfg) (SOURCE_SHEET cfg)) as [e | df]; [eauto|].
  destruct (has_column (columns df) (lit "SKU")); simpl; [|eauto].
  destruct (has_column (columns df) (lit "Image")); simpl; eauto.
Qed.

(** C5.  Whenever an output file is written, its columns are the columns
    of the table that was read, in their order, followed by exactly those
    of [Variant SKU] and [Image Src] (in this order) that are not already
    among them. *)
Theorem written_columns (L : pylib) (cfg : settings) (W : world)
    (path : pystr) (cols : list pystr) (cells : list (list pystr)) :
  EvWrite path cols cells ∈ main L cfg W ->
  exists df : table,
    read_excel W (SOURCE_XLSX cfg) (SOURCE_SHEET cfg) = inr df
    /\ take (length (columns df)) cols = columns df
    /\ drop (length (columns df)) cols
       = List.filter (fun c => negb (has_column (columns df) c))
                     [lit "Variant SKU"; lit "Image Src"].
Proof.
  intros Hin. pose proof (main_started L cfg W) as Hm.
  destruct (started cfg W) as [df|].
  - destruct Hm as [Hread Hm]. rewrite Hm in Hin. exists df. split; [exact Hread|].
    apply elem_of_app in Hin as [Hin | Hin].
    + pose proof (loop_no_write L cfg W df) as Hw.
      rewrite Forall_forall in Hw. by apply Hw in Hin.
    + unfold finish in Hin. destruct (out_rows (loop L cfg W df)).
      * apply list_elem_of_singleton in Hin. discriminate.
      * apply elem_of_cons in Hin as [Heq | Hin].
        -- injection Heq as _ -> _. rewrite all_cols_filter.
           split; [by rewrite take_app_length | by rewrite drop_app_length].
        -- apply elem_of_cons in Hin as [Heq | Hin]; [discriminate|].
           apply list_elem_of_singleton in Hin. discriminate.
  - destruct Hm as [m Hm]. rewrite Hm in Hin.
    apply list_elem_of_singleton in Hin. discriminate.
Qed.

Lemma written_columns_witness :
  exists df : table,
    read_excel (Examples.world_of (Table Examples.cols3 [Examples.row_a]))
               (SOURCE_XLSX Examples.cfg0) (SOURCE_SHEET Examples.cfg0) = inr df
    /\ take (length (columns df)) (Examples.cols3 ++ [lit "Variant SKU"; lit "Image Src"])
       = columns df
    /\ drop (length (columns df)) (Examples.cols3 ++ [lit "Variant SKU"; lit "Image Src"])
       = List.filter (fun c => negb (has_column (columns df) c))
                     [lit "Variant SKU"; lit "Image Src"].
Proof.
  apply (written_columns Examples.excerpt Examples.cfg0
           (Examples.world_of (Table Examples.cols3 [Examples.row_a]))
           (lit "final_output.xlsx")
           (Examples.cols3 ++ [lit "Variant SKU"; lit "Image Src"])
           [[lit "ABC1"; lit "http://x/a.png"; lit "Red Widget!"; lit "ABC1";
             lit "https://res.cloudinary.com/demo/image/upload/c_pad,w_800,h_800,b_white,f_auto,q_auto,dpr_auto/v1/husq_parts/Red_Widget.png"]]).
  apply (list_elem_of_lookup_2 _ 4). vm_compute. reflexivity.
Defined.

(** A table that already has an [Image Src] column gets only
    [Variant SKU] appended. *)
Example all_cols_present :
  all_cols [lit "SKU"; lit "Image Src"; lit "Image"]
  = [lit "SKU"; lit "Image Src"; lit "Image"; lit "Variant SKU"].
Proof. vm_compute. reflexivity. Qed.

Lemma request_not_done (e : event) : is_request e = true -> is_done e = false.
Proof. by destruct e. Qed.

Lemma process_row_no_done (L : pylib) (cfg : settings) (W : world) (cols : list pystr)
    (st : loop_state) (idx : nat) (row : list pyval) :
  Forall (fun e => is_done e = false) (trace st) ->
  Forall (fun e => is_done e = false) (trace (process_row L cfg W cols st idx row)).
Proof.
  intros Hst. unfold process_row.
  destruct (check_row L cols row) as [|sku|sku img]; simpl.
  - apply Forall_app. split; [done | by repeat constructor].
  - apply Forall_app. split; [done | by repeat constructor].
  - pose proof (upload_events_requests L cfg W idx img
                  (row_public_id L cfg cols row sku) (row_referer L cols row)) as Hev.
    unfold attempt_row.
    destruct (upload_to_cloudinary L cfg W idx img (row_public_id L cfg cols row sku)
                (row_referer L cols row)) as [evs [e | v]]; simpl in *;
      rewrite !Forall_app; (split; [done|]);
      (split; [eapply Forall_impl; [exact Hev | apply request_not_done]
              | by repeat constructor]).
Qed.

(** The loop never prints the line with the counts. *)
Lemma loop_no_done (L : pylib) (cfg : settings) (W : world) (df : table) :
  Forall (fun e => is_done e = false) (trace (loop L cfg W df)).
Proof.
  unfold loop.
  apply (loop_from_invariant L cfg W (columns df)
           (fun st => Forall (fun e => is_done e = false) (trace st))).
  - intros st idx row. apply process_row_no_done.
  - constructor.
Qed.

(** C7 (as amended).  For a run that gets to the loop and in which no row
    produces an output row, no output file is written and the run ends
    with the fixed line "No rows processed; nothing to write.", which
    carries no counts; the line with the attempted and processed counts is
    not printed. *)
Theorem nothing_written_when_no_rows (L : pylib) (cfg : settings) (W : world) (df : table) :
  started cfg W = Some df ->
  out_rows (loop L cfg W df) = [] ->
  main L cfg W = trace (loop L cfg W df) ++ [EvPrint MsgNothing]
  /\ Forall (fun e => is_write e = false) (main L cfg W)
  /\ Forall (fun e => is_done e = false) (main L cfg W)
  /\ last (main L cfg W) = Some (EvPrint MsgNothing)
  /\ processed (loop L cfg W df) = 0%nat.
Proof.
  intros Hs Hout. pose proof (main_started L cfg W) as Hm. rewrite Hs in Hm.
  destruct Hm as [_ Hm]. unfold finish in Hm. rewrite Hout in Hm.
  split; [exact Hm|]. split; [|split; [|split]].
  - rewrite Hm. apply Forall_app. split; [apply loop_no_write | by repeat constructor].
  - rewrite Hm. apply Forall_app. split; [apply loop_no_done | by repeat constructor].
  - rewrite Hm. apply last_snoc.
  - destruct (loop_from_counters L cfg W (columns df) (rows df)) as [Hc _].
    fold (loop L cfg W df) in Hc. by rewrite Hc, Hout.
Qed.

Lemma nothing_written_when_no_rows_witness :
  let W := Examples.world_of (Table Examples.cols3 [Examples.row_404; Examples.row_nosku]) in
  Forall (fun e => is_write e = false) (main Examples.excerpt Examples.cfg0 W)
  /\ Forall (fun e => is_done e = false) (main Examples.excerpt Examples.cfg0 W)
  /\ last (main Examples.excerpt Examples.cfg0 W) = Some (EvPrint MsgNothing).
Proof.
  cbv zeta.
  destruct (nothing_written_when_no_rows Examples.excerpt Examples.cfg0
              (Examples.world_of (Table Examples.cols3 [Examples.row_404; Examples.row_nosku]))
              (Table Examples.cols3 [Examples.row_404; Examples.row_nosku]))
    as (_ & Hw & Hd & Hl & _).
  - vm_compute. reflexivity.
  - vm_compute. reflexivity.
  - exact (conj Hw (conj Hd Hl)).
Defined.

(** C7 as stated fails: when the only row's image cannot be fetched, no
    output row is produced and no file is written, yet one row was
    attempted, and the closing line is the fixed one: the line that
    reports the counts is never printed. *)
Lemma failed_row_summary_counterexample :
  let df := Table Examples.cols3 [Examples.row_404] in
  let W := Examples.world_of df in
  Examples.started_on df = Some df
  /\ out_rows (loop Examples.excerpt Examples.cfg0 W df) = []
  /\ attempted (loop Examples.excerpt Examples.cfg0 W df) = 1%nat
  /\ last (main Examples.excerpt Examples.cfg0 W) = Some (EvPrint MsgNothing)
  /\ existsb is_done (main Examples.excerpt Examples.cfg0 W) = false
  /\ existsb is_write (main Examples.excerpt Examples.cfg0 W) = false.
Proof. cbv zeta. repeat split; vm_compute; reflexivity. Qed.

(** ** The upload identifier *)

Lemma row_get_absent (cols : list pystr) (row : list pyval) (col : pystr) :
  col ∉ cols -> row_get cols row col = VNone.
Proof.
  revert row. induction cols as [|c cols IH]; intros row Hn; [done|].
  destruct row as [|v row]; [done|]. simpl.
  apply not_elem_of_cons in Hn as [Hne Hn].
  rewrite bool_decide_eq_false_2 by congruence. by apply IH.
Qed.

(** The guard [col in df.columns] of lines 138-140 changes nothing: a
    missing column reads as [None], whose cell text is empty. *)
Lemma optional_cell_get (L : pylib) (cols : list pystr) (row : list pyval) (col : pystr) :
  optional_cell L cols row col = cell_str L (row_get cols row col).
Proof.
  unfold optional_cell, has_column. case_bool_decide as Hc; [done|].
  by rewrite row_get_absent.
Qed.

Lemma check_row_ready (L : pylib) (cols : list pystr) (row : list pyval)
    (sku img_url : pystr) :
  check_row L cols row = Ready sku img_url ->
  sku = cell_str L (row_get cols row (lit "SKU"))
  /\ img_url = cell_str L (row_get cols row (lit "Image"))
  /\ truthy sku = true /\ truthy img_url = true.
Proof.
  unfold check_row.
  destruct (truthy (cell_str L (row_get cols row (lit "SKU")))) eqn:Hs; simpl; [|done].
  destruct (truthy (cell_str L (row_get cols row (lit "Image")))) eqn:Hi; simpl; [|done].
  intros [= <- <-]. auto.
Qed.

(** C6.  For every row that passes validation, the identifier handed to
    the uploader is the sanitized Image Alt Text when the alt-text flag is
    enabled and that sanitized value is non-empty; otherwise the sanitized
    Product Name when it is non-empty; otherwise the SKU. *)
Theorem public_id_choice (L : pylib) (cfg : settings) (W : world) (cols : list pystr)
    (idx : nat) (row : list pyval) (sku img_url : pystr) :
  check_row L cols row = Ready sku img_url ->
  row_public_id L cfg cols row sku = stated_public_id L cfg cols row
  /\ attempt_row L cfg W cols idx row sku img_url
     = upload_to_cloudinary L cfg W idx img_url (stated_public_id L cfg cols row)
         (row_referer L cols row).
Proof.
  intros Hc. apply check_row_ready in Hc as (Hsku & _ & _ & _).
  assert (Hid : row_public_id L cfg cols row sku = stated_public_id L cfg cols row).
  { unfold row_public_id, stated_public_id. rewrite !optional_cell_get, <- Hsku.
    destruct (USE_IMAGE_ALT_TEXT_AS_PUBLIC_ID cfg); simpl; [|done].
    by destruct (truthy (to_public_id L
                           (cell_str L (row_get cols row (lit "Image Alt Text"))))). }
  split; [exact Hid|]. unfold attempt_row. by rewrite Hid.
Qed.

Lemma public_id_choice_witness :
  row_public_id Examples.excerpt Examples.cfg0 Examples.cols3 Examples.row_a (lit "ABC1")
  = stated_public_id Examples.excerpt Examples.cfg0 Examples.cols3 Examples.row_a
  /\ stated_public_id Examples.excerpt Examples.cfg0 Examples.cols3 Examples.row_a
     = lit "Red_Widget".
Proof.
  split.
  - apply (proj1 (public_id_choice Examples.excerpt Examples.cfg0
                    (Examples.world_of (Table Examples.cols3 [Examples.row_a]))
                    Examples.cols3 0%nat Examples.row_a
                    (lit "ABC1") (lit "http://x/a.png") eq_refl)).
  - vm_compute. reflexivity.
Defined.

(** Without alt text and product name the SKU is used. *)
Example public_id_falls_back_to_sku :
  row_public_id Examples.excerpt Examples.cfg0 Examples.cols3 Examples.row_404 (lit "ABC2")
  = lit "ABC2".
Proof. vm_compute. reflexivity. Qed.

Lemma truthy_signable (s : pystr) : truthy s = true -> signable (VStr s) = true.
Proof. by destruct s. Qed.

Lemma row_public_id_truthy (L : pylib) (cfg : settings) (cols : list pystr)
    (row : list pyval) (sku : pystr) :
  truthy sku = true -> truthy (row_public_id L cfg cols row sku) = true.
Proof.
  intros Hs. unfold row_public_id.
  destruct (USE_IMAGE_ALT_TEXT_AS_PUBLIC_ID cfg); simpl.
  - destruct (truthy (to_public_id L (optional_cell L cols row (lit "Image Alt Text"))))
      eqn:Ha; [exact Ha|].
    by destruct (truthy (to_public_id L (optional_cell L cols row (lit "Product Name"))))
      eqn:Hn.
  - by destruct (truthy (to_public_id L (optional_cell L cols row (lit "Product Name"))))
      eqn:Hn.
Qed.

Lemma upload_post_public_id (L : pylib) (cfg : settings) (W : world) (i : nat)
    (remote_url public_id : pystr) (referer : option pystr)
    (endpoint : pystr) (payload : gmap pystr pyval) :
  truthy public_id = true ->
  EvPost endpoint payload ∈ (upload_to_cloudinary L cfg W i remote_url public_id referer).1 ->
  payload !! lit "public_id" = Some (VStr public_id)
  /\ exists data_url sig,
       cld_signature L (sign_params cfg (int_str (now W i)) public_id) sig.1 = Some sig.2
       /\ payload = upload_payload cfg data_url
                      (sign_params cfg (int_str (now W i)) public_id) sig.2.
Proof.
  intros Hp. unfold upload_to_cloudinary.
  assert (Hlook : forall data_url sig,
             upload_payload cfg data_url (sign_params cfg (int_str (now W i)) public_id) sig
             !! lit "public_id" = Some (VStr public_id)).
  { intros data_url sig. unfold upload_payload.
    rewrite lookup_insert_ne by (vm_compute; discriminate).
    rewrite lookup_insert_ne by (vm_compute; discriminate).
    apply lookup_union_Some_l. unfold sign_params. rewrite Hp.
    apply lookup_insert_eq. }
  repeat case_match; simpl; intros Hin;
    repeat (apply elem_of_cons in Hin as [Hin | Hin]; [try discriminate|]);
    try (by apply elem_of_nil in Hin);
    injection Hin as -> ->; (split; [apply Hlook|]);
    match goal with
    | Hsig : cld_signature _ _ ?secret = Some ?sig |- _ =>
        eexists _, (secret, sig); split; [exact Hsig | reflexivity]
    end.
Qed.

(** C10.  For every row that reaches the upload step the identifier
    passed to the uploader is non-empty, so the signed parameter set holds
    it under [public_id], the key is among those that enter the string to
    sign, and every upload request carries it. *)
Theorem public_id_always_signed (L : pylib) (cfg : settings) (W : world)
    (cols : list pystr) (idx : nat) (row : list pyval) (sku img_url : pystr) :
  check_row L cols row = Ready sku img_url ->
  let public_id := row_public_id L cfg cols row sku in
  truthy public_id = true
  /\ (forall ts : pystr,
        sign_params cfg ts public_id !! lit "public_id" = Some (VStr public_id)
        /\ lit "public_id" ∈ signed_keys (sign_params cfg ts public_id))
  /\ (forall (endpoint : pystr) (payload : gmap pystr pyval),
        EvPost endpoint payload ∈ (attempt_row L cfg W cols idx row sku img_url).1 ->
        payload !! lit "public_id" = Some (VStr public_id)).
Proof.
  intros Hc public_id. apply check_row_ready in Hc as (_ & _ & Hsku & _).
  assert (Hp : truthy public_id = true) by (by apply row_public_id_truthy).
  split; [exact Hp|]. split.
  - intros ts.
    assert (Hl : sign_params cfg ts public_id !! lit "public_id" = Some (VStr public_id)).
    { unfold sign_params. rewrite Hp. apply lookup_insert_eq. }
    split; [exact Hl|]. apply elem_of_signed_keys. exists (VStr public_id).
    split; [exact Hl | by apply truthy_signable].
  - intros endpoint payload Hin. unfold attempt_row in Hin.
    by apply (upload_post_public_id L cfg W idx img_url public_id
                (row_referer L cols row) endpoint payload Hp) in Hin as [Hl _].
Qed.

Lemma public_id_always_signed_witness :
  truthy (row_public_id Examples.excerpt Examples.cfg0 Examples.cols3 Examples.row_404
            (lit "ABC2")) = true.
Proof.
  apply (proj1 (public_id_always_signed Examples.excerpt Examples.cfg0
                  (Examples.world_of (Table Examples.cols3 [Examples.row_404]))
                  Examples.cols3 0%nat Examples.row_404
                  (lit "ABC2") (lit "http://x/missing.png") eq_refl)).
Defined.

(** The string signed for scenario A. *)
Example scenario_a_to_sign :
  to_sign Examples.excerpt
    (sign_params Examples.cfg0 (lit "1700000000") (lit "Red_Widget")) (lit "s3cret")
  = lit "folder=husq_parts&overwrite=true&public_id=Red_Widget&timestamp=1700000000&unique_filename=falses3cret".
Proof. vm_compute. reflexivity. Qed.

(** * Further properties of the helpers *)

(** ** [strip] *)

Lemma last_rev (s : pystr) : last (rev s) = head s.
Proof. destruct s as [|c s]; [done|]. simpl. apply last_snoc. Qed.

Lemma lstrip_suffix (p : N -> bool) (s : pystr) :
  exists pre, s = pre ++ lstrip p s /\ Forall (fun c => p c = true) pre.
Proof.
  induction s as [|c s (pre & Hs & Hp)]; simpl.
  - by exists [].
  - destruct (p c) eqn:Hc.
    + exists (c :: pre). split; [by rewrite Hs at 1 | by constructor].
    + by exists [].
Qed.

Lemma lstrip_head (p : N -> bool) (s : pystr) (c : N) :
  head (lstrip p s) = Some c -> p c = false.
Proof.
  induction s as [|d s IH]; simpl; [done|].
  destruct (p d) eqn:Hd; [exact IH|]. simpl. by intros [= <-].
Qed.

Lemma rstrip_prefix (p : N -> bool) (s : pystr) :
  exists suf, s = rstrip p s ++ suf /\ Forall (fun c => p c = true) suf.
Proof.
  unfold rstrip. destruct (lstrip_suffix p (rev s)) as (pre & Hs & Hp).
  exists (rev pre). split; [|by apply Forall_rev].
  rewrite <- rev_app_distr, <- Hs. by rewrite rev_involutive.
Qed.

Lemma rstrip_last (p : N -> bool) (s : pystr) (c : N) :
  last (rstrip p s) = Some c -> p c = false.
Proof.
  unfold rstrip. rewrite last_rev. apply lstrip_head.
Qed.

(** What [strip] returns neither starts nor ends with a trimmed
    character. *)
Lemma strip_ends (p : N -> bool) (s : pystr) (c : N) :
  (head (strip p s) = Some c -> p c = false)
  /\ (last (strip p s) = Some c -> p c = false).
Proof.
  unfold strip. split; [|apply rstrip_last].
  destruct (rstrip_prefix p (lstrip p s)) as (suf & Hs & _).
  destruct (rstrip p (lstrip p s)) as [|d r] eqn:Hr; [done|].
  simpl. intros [= ->]. apply (lstrip_head p s). by rewrite Hs.
Qed.

Lemma lstrip_all (p : N -> bool) (s : pystr) :
  lstrip p s = [] <-> Forall (fun c => p c = true) s.
Proof.
  induction s as [|c s IH]; simpl; [by split|].
  destruct (p c) eqn:Hc.
  - rewrite IH. split; [by constructor | by inversion 1].
  - split; [done|]. inversion 1; congruence.
Qed.

(** [strip] returns the empty string exactly on strings made of trimmed
    characters only. *)
Lemma strip_nil (p : N -> bool) (s : pystr) :
  strip p s = [] <-> Forall (fun c => p c = true) s.
Proof.
  unfold strip, rstrip. split.
  - intros H. apply (f_equal (@rev N)) in H. rewrite rev_involutive in H. simpl in H.
    apply lstrip_all, Forall_rev in H. rewrite rev_involutive in H.
    destruct (lstrip_suffix p s) as (pre & Hs & Hp). rewrite Hs.
    apply Forall_app. by split.
  - intros H. apply lstrip_all in H. rewrite H. reflexivity.
Qed.

(** A string that neither starts nor ends with a trimmed character is
    left alone. *)
Lemma strip_clean (p : N -> bool) (s : pystr) :
  (forall c, head s = Some c -> p c = false) ->
  (forall c, last s = Some c -> p c = false) ->
  strip p s = s.
Proof.
  intros Hh Hl. unfold strip, rstrip.
  assert (H1 : lstrip p s = s).
  { destruct s as [|c s]; [done|]. simpl. by rewrite (Hh c). }
  rewrite H1.
  assert (H2 : lstrip p (rev s) = rev s).
  { destruct (rev s) as [|c r] eqn:Hr; [done|]. simpl.
    rewrite (Hl c); [done|]. rewrite <- (rev_involutive s), Hr, last_rev. done. }
  rewrite H2. apply rev_involutive.
Qed.

(** ** The identifier sanitizer, continued *)

Lemma adjacent_underscores_cons (c d : N) (r : pystr) :
  adjacent_underscores (c :: d :: r)
  = (is_underscore c && is_underscore d) || adjacent_underscores (d :: r).
Proof. reflexivity. Qed.

Lemma adjacent_underscores_app (a b : pystr) :
  adjacent_underscores (a ++ b) = false ->
  adjacent_underscores a = false /\ adjacent_underscores b = false.
Proof.
  induction a as [|c a IH]; [done|].
  destruct a as [|d a].
  - simpl. destruct b as [|e b]; [done|]. intros H.
    apply orb_false_iff in H as [_ H]. done.
  - intros H. change ((c :: d :: a) ++ b) with (c :: d :: (a ++ b)) in H.
    rewrite adjacent_underscores_cons in H.
    apply orb_false_iff in H as [Hcd H]. apply IH in H as [Ha Hb].
    split; [|exact Hb]. rewrite adjacent_underscores_cons, Hcd. exact Ha.
Qed.

(** After [re.sub(r"_+", "_", s)] no two underscores are adjacent; inside
    a run the output does not start with one. *)
Lemma collapse_no_adjacent (b : bool) (s : pystr) :
  adjacent_underscores (sub_runs is_underscore b s) = false
  /\ (b = true -> forall c, head (sub_runs is_underscore b s) = Some c ->
                            is_underscore c = false).
Proof.
  revert b. induction s as [|c s IH]; intros b; [done|]. simpl.
  destruct (is_underscore c) eqn:Hc.
  - destruct (IH true) as [Hadj Hhead]. destruct b; [by split|].
    split; [|done]. destruct (sub_runs is_underscore true s) as [|d r] eqn:Hr; [done|].
    rewrite adjacent_underscores_cons, Hadj, (Hhead eq_refl d eq_refl).
    by rewrite andb_false_r.
  - destruct (IH false) as [Hadj _]. split.
    + destruct (sub_runs is_underscore false s) as [|d r] eqn:Hr; [done|].
      rewrite adjacent_underscores_cons. by rewrite Hc, Hadj.
    + intros _ d. simpl. by intros [= <-].
Qed.

(** X1.  The sanitizer's output never starts or ends with an underscore
    and never holds two underscores in a row. *)
Theorem to_public_id_underscores (L : pylib) (s : pystr) :
  head (to_public_id L s) <> Some underscore
  /\ last (to_public_id L s) <> Some underscore
  /\ adjacent_underscores (to_public_id L s) = false.
Proof.
  unfold to_public_id.
  set (t := sub_runs is_underscore false
              (sub_runs (non_word L) false
                 (List.filter (fun c => negb (combining_mark c)) (nfkd L s)))).
  destruct (strip_ends is_underscore t underscore) as [Hh Hl].
  split; [intros H; by apply Hh in H|]. split; [intros H; by apply Hl in H|].
  unfold strip.
  destruct (lstrip_suffix is_underscore t) as (pre & Ht & _).
  destruct (rstrip_prefix is_underscore (lstrip is_underscore t)) as (suf & Hs & _).
  destruct (collapse_no_adjacent false
              (sub_runs (non_word L) false
                 (List.filter (fun c => negb (combining_mark c)) (nfkd L s)))) as [Hadj _].
  fold t in Hadj. rewrite Ht in Hadj.
  apply adjacent_underscores_app in Hadj as [_ Hadj].
  rewrite Hs in Hadj. by apply adjacent_underscores_app in Hadj as [Hadj _].
Qed.

Lemma sub_runs_all_underscore (bad : N -> bool) (b : bool) (s : pystr) :
  Forall (fun c => is_underscore c = true) (sub_runs bad b s)
  <-> Forall (fun c => bad c || is_underscore c = true) s.
Proof.
  revert b. induction s as [|c s IH]; intros b; simpl; [by split|].
  destruct (bad c) eqn:Hc.
  - destruct b.
    + rewrite IH. split; [intros H; constructor; [by rewrite Hc | done]
                         | by inversion 1].
    + split.
      * inversion 1 as [|? ? _ Hr]; subst. constructor; [by rewrite Hc|]. by apply IH in Hr.
      * inversion 1 as [|? ? _ Hr]; subst. constructor; [done|]. by apply IH.
  - split.
    + inversion 1 as [|? ? Hu Hr]; subst. constructor; [by rewrite Hc | by apply IH in Hr].
    + inversion 1 as [|? ? Hu Hr]; subst. rewrite Hc in Hu.
      constructor; [done | by apply IH].
Qed.

Lemma Forall_list_filter_bool {A} (P : A -> Prop) (f : A -> bool) (l : list A) :
  Forall P (List.filter f l) <-> Forall (fun x => f x = true -> P x) l.
Proof.
  induction l as [|x l IH]; simpl; [by split|].
  destruct (f x) eqn:Hx.
  - split; inversion 1; subst; constructor; try tauto; auto.
  - rewrite IH. split; [intros H; constructor; [congruence | done] | by inversion 1].
Qed.

(** X2.  The sanitizer returns the empty string exactly when every
    character of the NFKD form is a combining mark, an underscore, or a
    character outside the word class and the hyphen: the case in which the
    caller falls back to another field. *)
Theorem to_public_id_empty_iff (L : pylib) (s : pystr) :
  to_public_id L s = [] <-> Forall (fun c => vanishing L c = true) (nfkd L s).
Proof.
  unfold to_public_id. rewrite strip_nil, sub_runs_all_underscore.
  setoid_rewrite orb_diag.
  rewrite sub_runs_all_underscore, Forall_list_filter_bool.
  apply Forall_iff. intros c. unfold vanishing.
  destruct (combining_mark c), (non_word L c), (is_underscore c); simpl; intuition congruence.
Qed.

Lemma list_filter_all {A} (f : A -> bool) (l : list A) :
  Forall (fun x => f x = true) l -> List.filter f l = l.
Proof.
  induction 1 as [|x l Hx _ IH]; simpl; [done|]. by rewrite Hx, IH.
Qed.

Lemma collapse_clean (b : bool) (s : pystr) :
  (b = true -> forall c, head s = Some c -> is_underscore c = false) ->
  adjacent_underscores s = false ->
  sub_runs is_underscore b s = s.
Proof.
  revert b. induction s as [|c s IH]; intros b Hh Hadj; [done|]. simpl.
  assert (Hs : adjacent_underscores s = false).
  { destruct s as [|d s]; [done|]. rewrite adjacent_underscores_cons in Hadj.
    by apply orb_false_iff in Hadj as [_ ?]. }
  destruct (is_underscore c) eqn:Hc.
  - destruct b; [by rewrite (Hh eq_refl c eq_refl) in Hc|].
    apply N.eqb_eq in Hc as ->. f_equal. apply IH; [|exact Hs].
    intros _ d Hd. destruct s as [|e s]; [done|]. simpl in Hd. injection Hd as ->.
    rewrite adjacent_underscores_cons in Hadj. apply orb_false_iff in Hadj as [Hadj _].
    by destruct (is_underscore d).
  - f_equal. by apply IH.
Qed.

(** X3.  A string that is its own NFKD form, holds only word characters
    and hyphens other than combining marks, has no two underscores in a
    row and neither starts nor ends with an underscore is returned
    unchanged. *)
Theorem to_public_id_clean (L : pylib) (s : pystr) :
  nfkd L s = s ->
  Forall (fun c => combining_mark c = false /\ non_word L c = false) s ->
  adjacent_underscores s = false ->
  head s <> Some underscore -> last s <> Some underscore ->
  to_public_id L s = s.
Proof.
  intros Hn Hc Hadj Hh Hl. unfold to_public_id. rewrite Hn.
  rewrite list_filter_all
    by (eapply Forall_impl; [exact Hc | intros c [-> _]; done]).
  replace (sub_runs (non_word L) false s) with s.
  2:{ rewrite <- (app_nil_r s) at 2. rewrite sub_runs_keep; [by rewrite app_nil_r|].
      eapply Forall_impl; [exact Hc | by intros c [_ ?]]. }
  rewrite collapse_clean by done.
  apply strip_clean; intros c Hc'; unfold is_underscore;
    apply N.eqb_neq; intros ->; congruence.
Qed.

Lemma to_public_id_clean_witness :
  to_public_id Examples.excerpt (lit "Red_Widget-2") = lit "Red_Widget-2".
Proof.
  apply to_public_id_clean.
  - reflexivity.
  - repeat constructor.
  - reflexivity.
  - discriminate.
  - discriminate.
Defined.

(** ** Table cells *)

Lemma forallb_Forall_bool {A} (f : A -> bool) (l : list A) :
  forallb f l = true <-> Forall (fun x => f x = true) l.
Proof. rewrite List.forallb_forall, Forall_forall. by setoid_rewrite list_elem_of_In. Qed.

Lemma cell_str_nil (L : pylib) (v : pyval) : cell_str L v = [] <-> blank L v = true.
Proof.
  unfold cell_str, blank. destruct (isna v); simpl; [by split|].
  rewrite strip_nil. symmetry. apply forallb_Forall_bool.
Qed.

Lemma truthy_cell_str (L : pylib) (v : pyval) : truthy (cell_str L v) = negb (blank L v).
Proof.
  pose proof (cell_str_nil L v) as H.
  destruct (cell_str L v) as [|c s], (blank L v); simpl; try done.
  - by pose proof (proj1 H eq_refl).
  - by pose proof (proj2 H eq_refl).
Qed.

(** X4.  The text of a cell never starts or ends with whitespace, is
    empty for a missing or NaN cell, and reading it again as a cell gives
    the same text. *)
Theorem cell_str_trimmed (L : pylib) (val : pyval) :
  match head (cell_str L val) with
  | Some c => py_isspace c = false
  | None => True
  end
  /\ match last (cell_str L val) with
     | Some c => py_isspace c = false
     | None => True
     end
  /\ (if isna val then cell_str L val = [] else True)
  /\ cell_str L (VStr (cell_str L val)) = cell_str L val.
Proof.
  assert (Hends : forall c,
             (head (cell_str L val) = Some c -> py_isspace c = false)
             /\ (last (cell_str L val) = Some c -> py_isspace c = false)).
  { intros c. unfold cell_str. destruct (isna val); [|apply strip_ends].
    split; intros H; inversion H. }
  split; [|split; [|split]].
  - destruct (head (cell_str L val)) as [c|] eqn:Hh; [|done].
    destruct (Hends c) as [H _]. by apply H.
  - destruct (last (cell_str L val)) as [c|] eqn:Hl; [|done].
    destruct (Hends c) as [_ H]. by apply H.
  - unfold cell_str. by destruct (isna val).
  - change (cell_str L (VStr (cell_str L val))) with (strip py_isspace (cell_str L val)).
    apply strip_clean; intros c; apply Hends.
Qed.

(** X5.  A row is skipped for its SKU exactly when the SKU cell is
    missing, NaN or whitespace only; otherwise it is skipped for its image
    exactly when the Image cell is; otherwise it is ready, with the trimmed
    texts of the two cells.  The SKU is looked at first. *)
Theorem check_row_cases (L : pylib) (cols : list pystr) (row : list pyval) :
  check_row L cols row
  = if blank L (row_get cols row (lit "SKU")) then MissingSku
    else if blank L (row_get cols row (lit "Image"))
         then EmptyImage (cell_str L (row_get cols row (lit "SKU")))
         else Ready (cell_str L (row_get cols row (lit "SKU")))
                    (cell_str L (row_get cols row (lit "Image"))).
Proof.
  unfold check_row. rewrite !truthy_cell_str, !negb_involutive. reflexivity.
Qed.

(** ** The signature, continued *)

(** X6.  Adding a parameter whose value is [None], the empty string or
    [False] under a name the dictionary does not hold changes neither the
    string to sign nor the signature. *)
Theorem dropped_value_ignored (L : pylib) (params : gmap pystr pyval) (k : pystr)
    (w : pyval) (secret : pystr) :
  params !! k = None -> equal_dropped w = true ->
  to_sign L (<[k := w]> params) secret = to_sign L params secret
  /\ cld_signature L (<[k := w]> params) secret = cld_signature L params secret.
Proof.
  intros Hk Hw.
  assert (H : to_sign L (<[k := w]> params) secret = to_sign L params secret).
  { rewrite !to_sign_canonical. unfold canonical_string.
    rewrite map_filter_insert_not'; [done | simpl; by rewrite Hw |].
    intros y Hy. by rewrite Hk in Hy. }
  split; [exact H|]. unfold cld_signature. by rewrite H.
Qed.

Lemma dropped_value_ignored_witness :
  to_sign Examples.excerpt
    (<[lit "public_id" := VStr []]> (<[lit "folder" := VStr (lit "husq_parts")]> ∅))
    (lit "s3cret")
  = to_sign Examples.excerpt (<[lit "folder" := VStr (lit "husq_parts")]> ∅) (lit "s3cret").
Proof.
  apply dropped_value_ignored.
  - vm_compute. reflexivity.
  - reflexivity.
Defined.

Lemma hex_digit_lower_hex (n : N) : n < 16 -> is_lower_hex (SHA1.hex_digit n) = true.
Proof.
  intros Hn. unfold SHA1.hex_digit, is_lower_hex.
  destruct (N.ltb_spec n 10).
  - apply orb_true_iff. left. apply andb_true_iff. split; apply N.leb_le; lia.
  - apply orb_true_iff. right. apply andb_true_iff. split; apply N.leb_le; lia.
Qed.

Lemma be_bytes_bytes (width : nat) (v : N) :
  length (SHA1.be_bytes width v) = width
  /\ Forall (fun b => b < 256) (SHA1.be_bytes width v).
Proof.
  unfold SHA1.be_bytes. split.
  - by rewrite length_map, length_rev, length_seq.
  - apply Forall_forall. intros b Hb. apply list_elem_of_In, List.in_map_iff in Hb.
    destruct Hb as (i & <- & _). by apply N.mod_lt.
Qed.

Lemma digest_bytes (msg : pybytes) :
  length (SHA1.digest msg) = 20%nat /\ Forall (fun b => b < 256) (SHA1.digest msg).
Proof.
  unfold SHA1.digest. cbv zeta. cbn [flat_map]. split.
  - rewrite !length_app. rewrite !(proj1 (be_bytes_bytes 4 _)). reflexivity.
  - rewrite !Forall_app. repeat split; try apply be_bytes_bytes. constructor.
Qed.

Lemma hexdigest_shape (msg : pybytes) :
  length (SHA1.hexdigest msg) = 40%nat
  /\ Forall (fun c => is_lower_hex c = true) (SHA1.hexdigest msg).
Proof.
  unfold SHA1.hexdigest. destruct (digest_bytes msg) as [Hlen Hb].
  assert (H : forall l, Forall (fun b => b < 256) l ->
            length (flat_map (fun b => [SHA1.hex_digit (b / 16); SHA1.hex_digit (b mod 16)]) l)
            = (2 * length l)%nat
            /\ Forall (fun c => is_lower_hex c = true)
                 (flat_map (fun b => [SHA1.hex_digit (b / 16); SHA1.hex_digit (b mod 16)]) l)).
  { induction 1 as [|b l Hlt _ [IHl IHf]]; simpl; [by split|]. split; [lia|].
    constructor; [|constructor; [|exact IHf]].
    - apply hex_digit_lower_hex. apply N.Div0.div_lt_upper_bound. lia.
    - apply hex_digit_lower_hex. by apply N.mod_lt. }
  destruct (H _ Hb) as [H1 H2]. split; [by rewrite H1, Hlen | exact H2].
Qed.

(** X7.  A signature, when one is returned, is forty characters long and
    made of the digits and the letters a to f. *)
Theorem cld_signature_shape (L : pylib) (params : gmap pystr pyval)
    (api_secret sig : pystr) :
  cld_signature L params api_secret = Some sig ->
  length sig = 40%nat /\ Forall (fun c => is_lower_hex c = true) sig.
Proof.
  unfold cld_signature. destruct (utf8_encode (to_sign L params api_secret)); simpl; [|done].
  intros [= <-]. apply hexdigest_shape.
Qed.

Lemma cld_signature_shape_witness :
  length (lit "a0f1490a20d0211c997b44bc357e1972deab8ae3") = 40%nat
  /\ Forall (fun c => is_lower_hex c = true) (lit "a0f1490a20d0211c997b44bc357e1972deab8ae3").
Proof.
  apply (cld_signature_shape Examples.excerpt (<[lit "a" := VInt 0]> ∅) (lit "s")).
  vm_compute. reflexivity.
Defined.

Lemma utf8_char_encodable (c : N) : utf8_char c = None <-> encodable c = false.
Proof.
  unfold utf8_char, encodable.
  destruct (N.ltb_spec c 0x80), (N.ltb_spec c 0x800), (N.leb_spec 0xD800 c),
    (N.leb_spec c 0xDFFF), (N.ltb_spec c 0x10000), (N.ltb_spec c 0x110000);
    simpl; try done; try lia.
Qed.

Lemma utf8_encode_None (s : pystr) :
  utf8_encode s = None <-> Exists (fun c => encodable c = false) s.
Proof.
  induction s as [|c s IH]; simpl.
  - split; [done | by inversion 1].
  - rewrite Exists_cons, <- IH, <- utf8_char_encodable.
    destruct (utf8_char c), (utf8_encode s); simpl; intuition congruence.
Qed.

Lemma forallb_false_Exists {A} (f : A -> bool) (l : list A) :
  forallb f l = false -> Exists (fun x => f x = false) l.
Proof.
  induction l as [|x l IH]; simpl; [done|].
  destruct (f x) eqn:Hx; simpl; [intros H; right; by apply IH | intros _; by left].
Qed.

(** X8.  The signature builder raises exactly when the string to sign
    holds a surrogate (or a value that is no code point); in particular it
    raises whenever the secret holds one. *)
Theorem cld_signature_raises_iff (L : pylib) (params : gmap pystr pyval)
    (api_secret : pystr) :
  (cld_signature L params api_secret = None
   <-> Exists (fun c => encodable c = false) (to_sign L params api_secret))
  /\ (if forallb encodable api_secret then True
      else cld_signature L params api_secret = None).
Proof.
  assert (H : cld_signature L params api_secret = None
              <-> Exists (fun c => encodable c = false) (to_sign L params api_secret)).
  { unfold cld_signature. rewrite <- utf8_encode_None.
    by destruct (utf8_encode (to_sign L params api_secret)). }
  split; [exact H|].
  destruct (forallb encodable api_secret) eqn:Hs; [done|].
  apply H. unfold to_sign. apply Exists_app. right.
  by apply forallb_false_Exists.
Qed.

(** X9.  For the parameters the uploader builds, the string to sign is
    the non-empty ones among folder, overwrite, public_id, timestamp and
    unique_filename, in this order, as [name=value] joined by [&], followed
    by the secret. *)
Theorem to_sign_sign_params (L : pylib) (cfg : settings) (ts public_id secret : pystr) :
  to_sign L (sign_params cfg ts public_id) secret
  = join (lit "&")
      (map (fun kv : pystr * pystr => kv.1 ++ lit "=" ++ kv.2)
           (List.filter (fun kv : pystr * pystr => truthy kv.2)
                        (sign_fields cfg ts public_id)))
    ++ secret.
Proof.
  unfold to_sign, sign_fields, sign_params, signed_keys, sorted_keys.
  destruct (CLD_FOLDER cfg) as [|f folder], ts as [|t ts], public_id as [|p pid];
    vm_compute; reflexivity.
Qed.

(** * Further properties of the uploader *)

(** The requests of a call: a GET, then at most one POST to the upload
    endpoint. *)
Lemma upload_events_shape (L : pylib) (cfg : settings) (W : world) (i : nat)
    (remote_url public_id : pystr) (referer : option pystr) :
  (upload_to_cloudinary L cfg W i remote_url public_id referer).1
  = [EvGet remote_url (request_headers referer)]
  \/ exists payload,
       (upload_to_cloudinary L cfg W i remote_url public_id referer).1
       = [EvGet remote_url (request_headers referer);
          EvPost (upload_endpoint cfg) payload].
Proof.
  unfold upload_to_cloudinary, upload_endpoint. repeat case_match; simpl; eauto.
Qed.

(** A call that makes no POST ends with an exception. *)
Lemma upload_requests_or_fail (L : pylib) (cfg : settings) (W : world) (i : nat)
    (remote_url public_id : pystr) (referer : option pystr) :
  (upload_to_cloudinary L cfg W i remote_url public_id referer).1
  = [EvGet remote_url (request_headers referer)] ->
  exists e, (upload_to_cloudinary L cfg W i remote_url public_id referer).2 = inl e.
Proof.
  unfold upload_to_cloudinary. repeat case_match; simpl; eauto; discriminate.
Qed.

(** X10.  A call makes one GET; it makes a POST only after the GET
    answered 200, and then exactly one, to the upload endpoint; a call
    that does not get as far as the POST ends with an exception. *)
Theorem upload_requests_shape (L : pylib) (cfg : settings) (W : world) (i : nat)
    (remote_url public_id : pystr) (referer : option pystr) :
  let r := upload_to_cloudinary L cfg W i remote_url public_id referer in
  let get := EvGet remote_url (request_headers referer) in
  (r.1 = [get] /\ exists e, r.2 = inl e)
  \/ (exists payload resp,
        r.1 = [get; EvPost (upload_endpoint cfg) payload]
        /\ http_get W i remote_url (request_headers referer) = inr resp
        /\ status_code resp = 200%Z).
Proof.
  cbv zeta. unfold upload_to_cloudinary, upload_endpoint.
  destruct (http_get W i remote_url (request_headers referer)) as [msg | resp];
    [left; eauto|].
  destruct (status_code resp =? 200)%Z eqn:Hst; simpl; [|left; eauto].
  apply Z.eqb_eq in Hst.
  destruct (CLOUD_API_SECRET cfg) as [secret|]; [|left; eauto].
  destruct (cld_signature L _ secret) as [sig|]; [|left; eauto].
  right. repeat case_match; simpl; eauto.
Qed.

(** X11.  What a call ends with.  A fetch failure carries the URL and the
    status the GET answered, which is not 200; an upload failure carries
    the status and body the POST answered, a status other than 200 and 201;
    a value is returned only when the POST answered 200 or 201 and the
    response decodes, and it is the [secure_url] field, or the empty string
    when the response has no such field. *)
Theorem upload_outcome (L : pylib) (cfg : settings) (W : world) (i : nat)
    (remote_url public_id : pystr) (referer : option pystr) :
  let r := upload_to_cloudinary L cfg W i remote_url public_id referer in
  match r.2 with
  | inl (FetchFailed st u) =>
      u = remote_url /\ st <> 200%Z
      /\ exists resp, http_get W i remote_url (request_headers referer) = inr resp
                      /\ status_code resp = st
  | inl (UploadFailed st body) =>
      st <> 200%Z /\ st <> 201%Z
      /\ exists payload up,
           http_post W i (upload_endpoint cfg) payload = inr up
           /\ status_code up = st /\ text up = body
  | inl TypeError => CLOUD_API_SECRET cfg = None
  | inl EncodeError =>
      exists secret, CLOUD_API_SECRET cfg = Some secret
        /\ cld_signature L (sign_params cfg (int_str (now W i)) public_id) secret = None
  | inl (LibraryError msg) =>
      http_get W i remote_url (request_headers referer) = inl msg
      \/ exists payload,
           http_post W i (upload_endpoint cfg) payload = inl msg
           \/ exists up, http_post W i (upload_endpoint cfg) payload = inr up
                         /\ json up = inl msg
  | inr v =>
      exists payload up field,
        http_post W i (upload_endpoint cfg) payload = inr up
        /\ (status_code up = 200%Z \/ status_code up = 201%Z)
        /\ json up = inr field
        /\ v = default (VStr []) field
  end.
Proof.
  cbv zeta. unfold upload_to_cloudinary, upload_endpoint.
  destruct (http_get W i remote_url (request_headers referer)) as [msg | resp];
    simpl; [by left|].
  destruct (status_code resp =? 200)%Z eqn:Hst; simpl.
  2:{ apply Z.eqb_neq in Hst. eauto. }
  destruct (CLOUD_API_SECRET cfg) as [secret|]; simpl; [|done].
  destruct (cld_signature L _ secret) as [sig|] eqn:Hsig; simpl; [|eauto].
  match goal with
  | |- context [http_post W i ?ep ?pl] =>
      destruct (http_post W i ep pl) as [msg | up] eqn:Hpost
  end; simpl; [right; eauto|].
  destruct (status_code up =? 200)%Z eqn:H200; simpl.
  - apply Z.eqb_eq in H200. destruct (json up) as [msg | field] eqn:Hj; simpl.
    + right. eauto.
    + eauto 10.
  - destruct (status_code up =? 201)%Z eqn:H201; simpl.
    + apply Z.eqb_eq in H201. destruct (json up) as [msg | field] eqn:Hj; simpl.
      * right. eauto.
      * eauto 10.
    + apply Z.eqb_neq in H200, H201. eauto 10.
Qed.

Lemma sign_params_other_keys (cfg : settings) (ts public_id k : pystr) :
  k = lit "file" \/ k = lit "api_key" \/ k = lit "signature" ->
  sign_params cfg ts public_id !! k = None.
Proof.
  intros Hk. unfold sign_params.
  destruct (truthy public_id);
    destruct Hk as [-> | [-> | ->]];
    repeat (rewrite lookup_insert_ne by (vm_compute; discriminate));
    apply lookup_empty.
Qed.

(** Leaving the file, the key and the signature out of the payload of
    lines 82-87 gives back the signed parameters. *)
Lemma upload_payload_params (cfg : settings) (data_url ts public_id sig : pystr) :
  delete (lit "file")
    (delete (lit "api_key")
       (delete (lit "signature")
          (upload_payload cfg data_url (sign_params cfg ts public_id) sig)))
  = sign_params cfg ts public_id.
Proof.
  unfold upload_payload. apply map_eq. intros k.
  destruct (decide (k = lit "file")) as [-> | Hf];
    [rewrite lookup_delete_eq; symmetry; apply sign_params_other_keys; auto|].
  rewrite lookup_delete_ne by congruence.
  destruct (decide (k = lit "api_key")) as [-> | Ha];
    [rewrite lookup_delete_eq; symmetry; apply sign_params_other_keys; auto|].
  rewrite lookup_delete_ne by congruence.
  destruct (decide (k = lit "signature")) as [-> | Hs];
    [rewrite lookup_delete_eq; symmetry; apply sign_params_other_keys; auto|].
  rewrite lookup_delete_ne by congruence.
  rewrite !lookup_insert_ne by congruence.
  destruct (sign_params cfg ts public_id !! k) as [v|] eqn:Hv.
  - by apply lookup_union_Some_l.
  - apply lookup_union_None. split; [done|].
    rewrite lookup_insert_ne by congruence. apply lookup_empty.
Qed.

(** Every POST of a call carries the payload of lines 82-87 built from
    the fetched image, the signed parameters and their signature. *)
Lemma upload_posts (L : pylib) (cfg : settings) (W : world) (i : nat)
    (remote_url public_id : pystr) (referer : option pystr)
    (endpoint : pystr) (payload : gmap pystr pyval) :
  EvPost endpoint payload
    ∈ (upload_to_cloudinary L cfg W i remote_url public_id referer).1 ->
  exists resp secret sig,
    http_get W i remote_url (request_headers referer) = inr resp
    /\ CLOUD_API_SECRET cfg = Some secret
    /\ cld_signature L (sign_params cfg (int_str (now W i)) public_id) secret = Some sig
    /\ endpoint = upload_endpoint cfg
    /\ payload = upload_payload cfg (data_uri resp)
                   (sign_params cfg (int_str (now W i)) public_id) sig.
Proof.
  unfold upload_to_cloudinary, upload_endpoint, data_uri.
  destruct (http_get W i remote_url (request_headers referer)) as [msg | resp]; simpl.
  { intros Hin. apply list_elem_of_singleton in Hin. discriminate. }
  destruct (negb (status_code resp =? 200)%Z); simpl.
  { intros Hin. apply list_elem_of_singleton in Hin. discriminate. }
  destruct (CLOUD_API_SECRET cfg) as [secret|]; simpl.
  2:{ intros Hin. apply list_elem_of_singleton in Hin. discriminate. }
  destruct (cld_signature L _ secret) as [sig|] eqn:Hsig; simpl.
  2:{ intros Hin. apply list_elem_of_singleton in Hin. discriminate. }
  intros Hin.
  assert (Hp : EvPost endpoint payload
               = EvPost (lit "https://api.cloudinary.com/v1_1/" ++
                         getenv_str (CLOUD_NAME cfg) ++ lit "/image/upload")
                   (upload_payload cfg
                      (lit "data:" ++ default (lit "image/png") (content_type resp)
                       ++ lit ";base64," ++ Base64.b64encode (content resp))
                      (sign_params cfg (int_str (now W i)) public_id) sig)).
  { repeat case_match; simpl in Hin;
      (apply elem_of_cons in Hin as [Hin | Hin]; [discriminate|]);
      by apply list_elem_of_singleton in Hin. }
  injection Hp as -> ->. exists resp, secret, sig. auto.
Qed.

(** X12.  Every upload request is consistent with its signature: the
    payload holds the data URI of the fetched image under [file], the API
    key and the signature, and what is left of it without these three is
    exactly the parameter set whose signature it carries, so that signing
    the payload again without them gives the signature sent. *)
Theorem upload_payload_signed (L : pylib) (cfg : settings) (W : world) (i : nat)
    (remote_url public_id : pystr) (referer : option pystr)
    (endpoint : pystr) (payload : gmap pystr pyval) :
  EvPost endpoint payload
    ∈ (upload_to_cloudinary L cfg W i remote_url public_id referer).1 ->
  exists resp secret sig,
    http_get W i remote_url (request_headers referer) = inr resp
    /\ CLOUD_API_SECRET cfg = Some secret
    /\ payload !! lit "file" = Some (VStr (data_uri resp))
    /\ payload !! lit "api_key" = Some (getenv_val (CLOUD_API_KEY cfg))
    /\ payload !! lit "signature" = Some (VStr sig)
    /\ delete (lit "file") (delete (lit "api_key") (delete (lit "signature") payload))
       = sign_params cfg (int_str (now W i)) public_id
    /\ cld_signature L
         (delete (lit "file") (delete (lit "api_key") (delete (lit "signature") payload)))
         secret
       = Some sig.
Proof.
  intros Hin. apply upload_posts in Hin as (resp & secret & sig & Hget & Hsec & Hsig & -> & ->).
  exists resp, secret, sig. rewrite upload_payload_params.
  repeat split; try done; unfold upload_payload.
  - rewrite !lookup_insert_ne by (vm_compute; discriminate).
    rewrite lookup_union_r by (apply sign_params_other_keys; auto).
    apply lookup_insert_eq.
  - rewrite lookup_insert_ne by (vm_compute; discriminate). apply lookup_insert_eq.
  - apply lookup_insert_eq.
Qed.

Lemma upload_payload_signed_witness :
  cld_signature Examples.excerpt
    (delete (lit "file") (delete (lit "api_key") (delete (lit "signature") Scenario.payload_a)))
    (lit "s3cret")
  = Some (Scenario.sig_a).
Proof.
  destruct (upload_payload_signed Examples.excerpt Examples.cfg0
              (Examples.world_of (Table Examples.cols3 [Examples.row_a])) 0
              (lit "http://x/a.png") (lit "Red_Widget") None
              (upload_endpoint Examples.cfg0) Scenario.payload_a)
    as (resp & secret & sig & _ & Hsec & _ & _ & Hsig & _ & H).
  - apply (list_elem_of_lookup_2 _ 1). vm_compute. reflexivity.
  - injection Hsec as <-.
    assert (Hs : sig = Scenario.sig_a).
    { assert (Hl : Scenario.payload_a !! lit "signature" = Some (VStr (Scenario.sig_a)))
        by (vm_compute; reflexivity).
      rewrite Hl in Hsig. by injection Hsig. }
    rewrite <- Hs. exact H.
Defined.

(** X13.  The first request of a row's attempt is a GET of the image URL
    whose headers hold the browser-like User-Agent and the Accept value,
    and a Referer exactly when the row's Starting Url cell is not blank,
    with the trimmed text of that cell. *)
Theorem row_request_headers (L : pylib) (cfg : settings) (W : world) (cols : list pystr)
    (idx : nat) (row : list pyval) (sku img_url : pystr) :
  exists headers rest,
    (attempt_row L cfg W cols idx row sku img_url).1 = EvGet img_url headers :: rest
    /\ headers !! lit "User-Agent" = Some (lit "Mozilla/5.0")
    /\ headers !! lit "Accept"
       = Some (lit "image/avif,image/webp,image/apng,image/*,*/*;q=0.8")
    /\ headers !! lit "Referer"
       = (if blank L (row_get cols row (lit "Starting Url")) then None
          else Some (cell_str L (row_get cols row (lit "Starting Url"))))
    /\ size headers
       = (if blank L (row_get cols row (lit "Starting Url")) then 2%nat else 3%nat).
Proof.
  exists (request_headers (row_referer L cols row)).
  assert (Hev : exists rest,
             (attempt_row L cfg W cols idx row sku img_url).1
             = EvGet img_url (request_headers (row_referer L cols row)) :: rest).
  { unfold attempt_row.
    destruct (upload_events_shape L cfg W idx img_url
                (row_public_id L cfg cols row sku) (row_referer L cols row))
      as [-> | (payload & ->)]; eauto. }
  destruct Hev as [rest Hev]. exists rest. split; [exact Hev|].
  unfold row_referer. rewrite optional_cell_get, truthy_cell_str.
  destruct (blank L (row_get cols row (lit "Starting Url"))) eqn:Hb; simpl.
  - repeat split; vm_compute; reflexivity.
  - unfold request_headers. rewrite truthy_cell_str, Hb. simpl.
    destruct (cell_str L (row_get cols row (lit "Starting Url"))) as [|c s];
      repeat split; vm_compute; reflexivity.
Qed.

(** * Further properties of the run *)

(** What an iteration adds to the loop state does not depend on the
    state. *)
Lemma process_row_extend (L : pylib) (cfg : settings) (W : world) (cols : list pystr)
    (st : loop_state) (idx : nat) (row : list pyval) :
  process_row L cfg W cols st idx row
  = extend st (process_row L cfg W cols loop_init idx row).
Proof.
  unfold process_row, extend.
  destruct (check_row L cols row) as [|sku|sku img]; simpl.
  - destruct st; simpl. by rewrite app_nil_r, !Nat.add_0_r.
  - destruct st; simpl. by rewrite app_nil_r, !Nat.add_0_r.
  - destruct (attempt_row L cfg W cols idx row sku img) as [evs [e | v]]; simpl;
      destruct st; simpl; f_equal; try rewrite app_nil_r; try done; lia.
Qed.

Lemma extend_assoc (a b c : loop_state) : extend (extend a b) c = extend a (extend b c).
Proof. unfold extend. simpl. f_equal; try lia; by rewrite app_assoc. Qed.

Lemma extend_init (st : loop_state) : extend st loop_init = st.
Proof. destruct st. unfold extend. simpl. by rewrite !app_nil_r, !Nat.add_0_r. Qed.

Lemma loop_from_extend (L : pylib) (cfg : settings) (W : world) (cols : list pystr)
    (todo : list (list pyval)) (idx : nat) (st : loop_state) :
  loop_from L cfg W cols idx todo st
  = extend st (loop_from L cfg W cols idx todo loop_init).
Proof.
  revert idx st. induction todo as [|row todo IH]; intros idx st; simpl.
  - by rewrite extend_init.
  - rewrite IH, (IH _ (process_row L cfg W cols loop_init idx row)).
    by rewrite process_row_extend, extend_assoc.
Qed.

(** X14.  What a stretch of rows adds to the loop state does not depend
    on the state it starts from: it is what the same rows, at the same
    indices, add to the initial state.  So the rows, counts and events of
    earlier rows are never changed by later ones, and a failure in one row
    has no effect on the rows after it. *)
Theorem loop_frame (L : pylib) (cfg : settings) (W : world) (cols : list pystr)
    (before after : list (list pyval)) (st : loop_state) (idx : nat) :
  loop_from L cfg W cols idx after st
  = extend st (loop_from L cfg W cols idx after loop_init)
  /\ loop_from L cfg W cols 0 (before ++ after) loop_init
     = extend (loop_from L cfg W cols 0 before loop_init)
              (loop_from L cfg W cols (length before) after loop_init).
Proof.
  split; [apply loop_from_extend|].
  rewrite loop_from_app. simpl. apply loop_from_extend.
Qed.

Lemma row_lines_app (a b : list event) : row_lines (a ++ b) = row_lines a ++ row_lines b.
Proof. unfold row_lines. apply flat_map_app. Qed.

Lemma row_lines_requests (evs : list event) :
  Forall (fun e => is_request e = true) evs -> row_lines evs = [].
Proof.
  induction 1 as [|e evs He _ IH]; [done|]. destruct e; first [done | exact IH].
Qed.

(** The one line an iteration prints. *)
Lemma process_row_line (L : pylib) (cfg : settings) (W : world) (cols : list pystr)
    (st : loop_state) (idx : nat) (row : list pyval) :
  exists m,
    row_lines (trace (process_row L cfg W cols st idx row)) = row_lines (trace st) ++ [m]
    /\ message_row m = Some (idx + 2)%nat.
Proof.
  unfold process_row.
  destruct (check_row L cols row) as [|sku|sku img]; simpl.
  - eexists. rewrite row_lines_app. split; reflexivity.
  - eexists. rewrite row_lines_app. split; reflexivity.
  - pose proof (upload_events_requests L cfg W idx img
                  (row_public_id L cfg cols row sku) (row_referer L cols row)) as Hev.
    unfold attempt_row.
    destruct (upload_to_cloudinary L cfg W idx img (row_public_id L cfg cols row sku)
                (row_referer L cols row)) as [evs [e | v]]; simpl in *;
      eexists; rewrite !row_lines_app, (row_lines_requests evs Hev); split; reflexivity.
Qed.

Lemma loop_from_lines (L : pylib) (cfg : settings) (W : world) (cols : list pystr)
    (todo : list (list pyval)) (idx : nat) (st : loop_state) :
  map message_row (row_lines (trace (loop_from L cfg W cols idx todo st)))
  = map message_row (row_lines (trace st))
    ++ map (fun i => Some (i + 2)%nat) (seq idx (length todo)).
Proof.
  revert idx st. induction todo as [|row todo IH]; intros idx st; simpl.
  - by rewrite app_nil_r.
  - rewrite IH. destruct (process_row_line L cfg W cols st idx row) as (m & -> & Hm).
    rewrite map_app. simpl. rewrite Hm. by rewrite <- app_assoc.
Qed.

(** X15.  The loop prints exactly one line per row of the table, in the
    order of the rows, and the line of the row at index [i] names
    spreadsheet row [i + 2]. *)
Theorem one_line_per_row (L : pylib) (cfg : settings) (W : world) (df : table) :
  map message_row (row_lines (trace (loop L cfg W df)))
  = map (fun i => Some (i + 2)%nat) (seq 0 (length (rows df))).
Proof. unfold loop. by rewrite loop_from_lines. Qed.

Lemma count_events_app (kind : event -> bool) (a b : list event) :
  count_events kind (a ++ b) = (count_events kind a + count_events kind b)%nat.
Proof. unfold count_events. by rewrite List.filter_app, length_app. Qed.

Lemma process_row_requests (L : pylib) (cfg : settings) (W : world) (cols : list pystr)
    (st : loop_state) (idx : nat) (row : list pyval) :
  count_events is_get (trace st) = attempted st
  /\ (processed st <= count_events is_post (trace st) <= attempted st)%nat ->
  count_events is_get (trace (process_row L cfg W cols st idx row))
  = attempted (process_row L cfg W cols st idx row)
  /\ (processed (process_row L cfg W cols st idx row)
      <= count_events is_post (trace (process_row L cfg W cols st idx row))
      <= attempted (process_row L cfg W cols st idx row))%nat.
Proof.
  intros (Hg & Hp1 & Hp2). unfold process_row.
  destruct (check_row L cols row) as [|sku|sku img]; simpl.
  - rewrite !count_events_app. unfold count_events at 2 4 6. simpl. lia.
  - rewrite !count_events_app. unfold count_events at 2 4 6. simpl. lia.
  - unfold attempt_row.
    pose proof (upload_events_shape L cfg W idx img
                  (row_public_id L cfg cols row sku) (row_referer L cols row)) as Hs.
    pose proof (upload_requests_or_fail L cfg W idx img
                  (row_public_id L cfg cols row sku) (row_referer L cols row)) as Hf.
    destruct (upload_to_cloudinary L cfg W idx img (row_public_id L cfg cols row sku)
                (row_referer L cols row)) as [evs [e | v]]; simpl in *.
    + destruct Hs as [-> | (payload & ->)]; rewrite !count_events_app;
        unfold count_events at 2 3 5 6 8 9; simpl; lia.
    + destruct Hs as [-> | (payload & ->)]; [by destruct Hf|].
      rewrite !count_events_app. unfold count_events at 2 3 5 6 8 9. simpl. lia.
Qed.

(** X16.  Over the loop the number of GET requests is the number of
    attempted rows, the number of POST requests lies between the number of
    processed rows and the number of attempted rows, and no more rows are
    attempted than the table has. *)
Theorem request_counts (L : pylib) (cfg : settings) (W : world) (df : table) :
  count_events is_get (trace (loop L cfg W df)) = attempted (loop L cfg W df)
  /\ (processed (loop L cfg W df)
      <= count_events is_post (trace (loop L cfg W df))
      <= attempted (loop L cfg W df))%nat
  /\ (attempted (loop L cfg W df) <= length (rows df))%nat.
Proof.
  split; [|split].
  - unfold loop.
    apply (loop_from_invariant L cfg W (columns df)
             (fun st => count_events is_get (trace st) = attempted st
                        /\ (processed st <= count_events is_post (trace st)
                            <= attempted st)%nat)).
    + intros st idx row. apply process_row_requests.
    + unfold count_events. simpl. lia.
  - unfold loop.
    apply (loop_from_invariant L cfg W (columns df)
             (fun st => count_events is_get (trace st) = attempted st
                        /\ (processed st <= count_events is_post (trace st)
                            <= attempted st)%nat)).
    + intros st idx row. apply process_row_requests.
    + unfold count_events. simpl. lia.
  - assert (H : forall todo st idx,
               (attempted (loop_from L cfg W (columns df) idx todo st)
                <= attempted st + length todo)%nat).
    { induction todo as [|row todo IH]; intros st idx; simpl; [lia|].
      etrans; [apply IH|].
      assert (attempted (process_row L cfg W (columns df) st idx row)
              <= S (attempted st))%nat; [|lia].
      unfold process_row. destruct (check_row L (columns df) row); simpl; try lia.
      destruct (attempt_row L cfg W (columns df) idx row sku img_url) as [? [?|?]];
        simpl; lia. }
    unfold loop. specialize (H (rows df) loop_init 0%nat). simpl in H. lia.
Qed.

(** X17.  A run that does not get to the loop prints one line and does
    nothing else.  The credentials are checked first, then the file is
    read, then the SKU column is looked for, then the Image column. *)
Theorem fatal_error_line (L : pylib) (cfg : settings) (W : world) :
  started cfg W = None ->
  main L cfg W
  = [EvPrint
       (if negb (credential_set (CLOUD_NAME cfg) && credential_set (CLOUD_API_KEY cfg)
                 && credential_set (CLOUD_API_SECRET cfg))
        then MsgMissingEnv
        else match read_excel W (SOURCE_XLSX cfg) (SOURCE_SHEET cfg) with
             | inl e => MsgReadError (SOURCE_XLSX cfg) e
             | inr df =>
                 MsgMissingColumn
                   (if has_column (columns df) (lit "SKU") then lit "Image" else lit "SKU")
             end)].
Proof.
  unfold started, main.
  destruct (credential_set (CLOUD_NAME cfg) && credential_set (CLOUD_API_KEY cfg)
            && credential_set (CLOUD_API_SECRET cfg)); simpl; [|done].
  destruct (read_excel W (SOURCE_XLSX cfg) (SOURCE_SHEET cfg)) as [e | df]; [done|].
  destruct (has_column (columns df) (lit "SKU")); simpl; [|done].
  by destruct (has_column (columns df) (lit "Image")).
Qed.

Lemma fatal_error_line_witness :
  main Examples.excerpt (script_settings (Some (lit "demo")) None (Some (lit "s3cret")))
       (Examples.world_of (Table Examples.cols3 [Examples.row_a]))
  = [EvPrint MsgMissingEnv].
Proof.
  apply (fatal_error_line Examples.excerpt
           (script_settings (Some (lit "demo")) None (Some (lit "s3cret")))
           (Examples.world_of (Table Examples.cols3 [Examples.row_a])) eq_refl).
Defined.

Lemma elem_of_row_lines (tr : list event) (m : message) :
  EvPrint m ∈ tr -> m ∈ row_lines tr.
Proof.
  intros Hin. unfold row_lines. apply list_elem_of_In, List.in_flat_map.
  exists (EvPrint m). split; [by apply list_elem_of_In | by left].
Qed.

(** The loop prints per-row lines only. *)
Lemma loop_prints_rows (L : pylib) (cfg : settings) (W : world) (df : table) (m : message) :
  EvPrint m ∈ trace (loop L cfg W df) -> is_Some (message_row m).
Proof.
  intros Hin. apply elem_of_row_lines in Hin.
  apply (list_elem_of_fmap_2 message_row) in Hin.
  change (message_row <$> row_lines (trace (loop L cfg W df)))
    with (map message_row (row_lines (trace (loop L cfg W df)))) in Hin.
  unfold loop in Hin. rewrite loop_from_lines in Hin. simpl in Hin.
  apply list_elem_of_In, List.in_map_iff in Hin as (i & <- & _). eauto.
Qed.

(** A run that stops before the loop does not print the closing line. *)
Lemma fatal_line_not_done (L : pylib) (cfg : settings) (W : world) :
  started cfg W = None -> Forall (fun e => is_done e = false) (main L cfg W).
Proof.
  unfold started, main.
  destruct (credential_set (CLOUD_NAME cfg) && credential_set (CLOUD_API_KEY cfg)
            && credential_set (CLOUD_API_SECRET cfg)); simpl; [|by repeat constructor].
  destruct (read_excel W (SOURCE_XLSX cfg) (SOURCE_SHEET cfg)) as [e | df];
    [by repeat constructor|].
  destruct (has_column (columns df) (lit "SKU")); simpl; [|by repeat constructor].
  destruct (has_column (columns df) (lit "Image")); simpl; [done | by repeat constructor].
Qed.

Lemma loop_sleeps (L : pylib) (cfg : settings) (W : world) (df : table) :
  sleeps (trace (loop L cfg W df)) = attempted (loop L cfg W df).
Proof.
  unfold loop.
  apply (loop_from_invariant L cfg W (columns df)
           (fun st => sleeps (trace st) = attempted st)); [|reflexivity].
  intros st idx row. apply process_row_sleeps.
Qed.

(** X18.  When the closing line with the counts is printed, a file was
    written; the counts are those of the loop; the file has as many rows as
    the processed count, which is at least 1 and at most the attempted
    count; every row of the file has one cell per column; and the run slept
    as many times as rows were attempted. *)
Theorem done_line_counts (L : pylib) (cfg : settings) (W : world) (a p : nat) :
  EvPrint (MsgDone a p) ∈ main L cfg W ->
  exists df cols cells,
    started cfg W = Some df
    /\ a = attempted (loop L cfg W df) /\ p = processed (loop L cfg W df)
    /\ EvWrite (DEST_XLSX cfg) cols cells ∈ main L cfg W
    /\ length cells = p /\ (1 <= p <= a)%nat
    /\ Forall (fun r => length r = length cols) cells
    /\ sleeps (main L cfg W) = a.
Proof.
  intros Hin. pose proof (main_started L cfg W) as Hm.
  destruct (started cfg W) as [df|] eqn:Hs.
  2:{ exfalso. pose proof (fatal_line_not_done L cfg W) as Hf.
      rewrite Forall_forall in Hf. by apply Hf in Hin. }
  destruct Hm as [_ Hm]. clear Hs. rewrite Hm in *.
  destruct (loop_from_counters L cfg W (columns df) (rows df)) as [Hlen Hle].
  fold (loop L cfg W df) in Hlen, Hle.
  apply elem_of_app in Hin as [Hin | Hin].
  { apply loop_prints_rows in Hin. by destruct Hin. }
  unfold finish in *. destruct (out_rows (loop L cfg W df)) as [|r rs] eqn:Hout.
  { apply list_elem_of_singleton in Hin. discriminate. }
  apply elem_of_cons in Hin as [Hin | Hin]; [discriminate|].
  apply elem_of_cons in Hin as [Hin | Hin];
    [|apply list_elem_of_singleton in Hin; discriminate].
  injection Hin as -> ->.
  eexists df, _, _. split; [done|]. split; [done|]. split; [done|]. split.
  { apply elem_of_app. right. left. }
  split; [by rewrite length_map, Hlen|]. split; [simpl in Hlen; lia|]. split.
  - apply Forall_forall. intros cells Hc.
    apply list_elem_of_In, List.in_map_iff in Hc as (r' & <- & _). by rewrite length_map.
  - rewrite sleeps_app, loop_sleeps. unfold sleeps. simpl. lia.
Qed.

Lemma done_line_counts_witness :
  sleeps (main Examples.excerpt Examples.cfg0
            (Examples.world_of (Table Examples.cols3 [Examples.row_a; Examples.row_404])))
  = 2%nat.
Proof.
  destruct (done_line_counts Examples.excerpt Examples.cfg0
              (Examples.world_of (Table Examples.cols3 [Examples.row_a; Examples.row_404]))
              2 1) as (df & cols & cells & _ & _ & _ & _ & _ & _ & _ & H).
  - apply (list_elem_of_lookup_2 _ 8). vm_compute. reflexivity.
  - exact H.
Defined.

(** ** The output row *)

Lemma lookup_fold_insert (f : pystr -> pystr) (cols : list pystr)
    (d : gmap pystr pystr) (col : pystr) :
  fold_left (fun d c => <[c := f c]> d) cols d !! col
  = if has_column cols col then Some (f col) else d !! col.
Proof.
  revert d. induction cols as [|c cols IH]; intros d; simpl; [done|].
  rewrite IH. unfold has_column.
  destruct (decide (col = c)) as [-> | Hne].
  - rewrite lookup_insert_eq.
    rewrite (bool_decide_eq_true_2 (c ∈ c :: cols)) by left.
    by case_bool_decide.
  - rewrite lookup_insert_ne by congruence.
    assert (Hd : bool_decide (col ∈ c :: cols) = bool_decide (col ∈ cols)).
    { apply bool_decide_ext. rewrite elem_of_cons. tauto. }
    by rewrite Hd.
Qed.

(** X19.  An output row holds the final URL under [Image Src] and the SKU
    under [Variant SKU], overriding source columns of these names, and under
    every other source column the trimmed text of the row's cell; it holds
    nothing else, and a value for every column of the written table. *)
Theorem out_row_values (L : pylib) (cols : list pystr) (row : list pyval)
    (sku final_url col : pystr) :
  make_out_row L cols row sku final_url !! col
  = (if bool_decide (col = lit "Image Src") then Some final_url
     else if bool_decide (col = lit "Variant SKU") then Some sku
     else if has_column cols col then Some (cell_str L (row_get cols row col))
     else None)
  /\ Forall (fun c => is_Some (make_out_row L cols row sku final_url !! c)) (all_cols cols).
Proof.
  assert (Hl : forall c,
             make_out_row L cols row sku final_url !! c
             = (if bool_decide (c = lit "Image Src") then Some final_url
                else if bool_decide (c = lit "Variant SKU") then Some sku
                else if has_column cols c then Some (cell_str L (row_get cols row c))
                else None)).
  { intros c. unfold make_out_row. case_bool_decide as H1.
    - subst. apply lookup_insert_eq.
    - rewrite lookup_insert_ne by congruence. case_bool_decide as H2.
      + subst. apply lookup_insert_eq.
      + rewrite lookup_insert_ne by congruence.
        rewrite (lookup_fold_insert (fun c => cell_str L (row_get cols row c))).
        by destruct (has_column cols c). }
  split; [apply Hl|]. rewrite all_cols_filter. apply Forall_app. split.
  - apply Forall_forall. intros c Hc. rewrite Hl.
    repeat case_bool_decide; eauto. unfold has_column.
    rewrite bool_decide_eq_true_2 by done. eauto.
  - apply Forall_forall. intros c Hc. apply elem_of_list_filter_bool in Hc as [Hc _].
    unfold extra_cols in Hc. rewrite Hl.
    apply elem_of_cons in Hc as [-> | Hc].
    + repeat case_bool_decide; eauto. done.
    + apply list_elem_of_singleton in Hc as ->. rewrite bool_decide_eq_true_2 by done. eauto.
Qed.

(** X20.  The columns of the written table hold both [Variant SKU] and
    [Image Src], repeat no label when the source columns repeat none, and
    computing them again from themselves changes nothing. *)
Theorem all_cols_closed (source_cols : list pystr) :
  lit "Variant SKU" ∈ all_cols source_cols
  /\ lit "Image Src" ∈ all_cols source_cols
  /\ all_cols (all_cols source_cols) = all_cols source_cols
  /\ (NoDup source_cols -> NoDup (all_cols source_cols)).
Proof.
  assert (Hin : forall c, c ∈ extra_cols -> c ∈ all_cols source_cols).
  { intros c Hc. rewrite all_cols_filter, elem_of_app, elem_of_list_filter_bool.
    unfold has_column. destruct (decide (c ∈ source_cols)) as [Hs | Hs]; [by left|].
    right. split; [done|]. by rewrite bool_decide_eq_false_2. }
  assert (Hv : lit "Variant SKU" ∈ all_cols source_cols) by (apply Hin; left).
  assert (Hi : lit "Image Src" ∈ all_cols source_cols) by (apply Hin; right; left).
  split; [exact Hv|]. split; [exact Hi|]. split.
  - rewrite (all_cols_filter (all_cols source_cols)). unfold extra_cols, has_column.
    cbn [List.filter]. rewrite !bool_decide_eq_true_2 by done. apply app_nil_r.
  - intros Hnd. rewrite all_cols_filter. apply NoDup_app. split; [exact Hnd|]. split.
    + intros x Hx Hx'. apply elem_of_list_filter_bool in Hx' as [_ Hx'].
      unfold has_column in Hx'. by rewrite bool_decide_eq_true_2 in Hx'.
    + apply NoDup_list_filter_bool. unfold extra_cols.
      constructor; [|constructor; [apply not_elem_of_nil | constructor]].
      rewrite list_elem_of_singleton. vm_compute. discriminate.
Qed.

Lemma all_cols_closed_witness : NoDup (all_cols Examples.cols3).
Proof.
  apply all_cols_closed.
  apply (bool_decide_unpack (NoDup Examples.cols3)). vm_compute. exact I.
Defined.

(** What a call returns is read off the answer to its POST. *)
Lemma upload_returns (L : pylib) (cfg : settings) (W : world) (i : nat)
    (remote_url public_id : pystr) (referer : option pystr) (v : pyval) :
  (upload_to_cloudinary L cfg W i remote_url public_id referer).2 = inr v ->
  exists payload up field,
    http_post W i (upload_endpoint cfg) payload = inr up
    /\ json up = inr field
    /\ v = default (VStr []) field.
Proof.
  unfold upload_to_cloudinary, upload_endpoint.
  destruct (http_get W i remote_url (request_headers referer)) as [msg | resp];
    simpl; [done|].
  destruct (negb (status_code resp =? 200)%Z); simpl; [done|].
  destruct (CLOUD_API_SECRET cfg) as [secret|]; simpl; [|done].
  destruct (cld_signature L _ secret) as [sig|]; simpl; [|done].
  match goal with
  | |- context [http_post W i ?ep ?pl] =>
      destruct (http_post W i ep pl) as [msg | up] eqn:Hpost
  end; simpl; [done|].
  destruct (negb ((status_code up =? 200)%Z || (status_code up =? 201)%Z)); simpl; [done|].
  destruct (json up) as [msg | field] eqn:Hj; simpl; [done|].
  intros [= <-]. eexists _, up, field.
  split; [exact Hpost|]. split; [exact Hj | reflexivity].
Qed.

(** X22.  A row whose upload returns appends one output row, with the
    row's SKU and the returned URL after transformation, and counts as
    attempted and processed.  The returned URL is the [secure_url] field of
    the service's answer to the row's POST; when the answer has no such
    field the row is processed all the same and the image URL written is
    the empty string. *)
Theorem processed_row_output (L : pylib) (cfg : settings) (W : world) (cols : list pystr)
    (st : loop_state) (idx : nat) (row : list pyval) (sku img_url : pystr)
    (evs : list event) (v : pyval) :
  check_row L cols row = Ready sku img_url ->
  attempt_row L cfg W cols idx row sku img_url = (evs, inr v) ->
  exists r payload up field,
    out_rows (process_row L cfg W cols st idx row) = out_rows st ++ [r]
    /\ r !! lit "Variant SKU" = Some sku
    /\ r !! lit "Image Src" = Some (cld_transform_url L v (CLD_DELIVERY_TRANSFORM cfg))
    /\ attempted (process_row L cfg W cols st idx row) = S (attempted st)
    /\ processed (process_row L cfg W cols st idx row) = S (processed st)
    /\ http_post W idx (upload_endpoint cfg) payload = inr up
    /\ json up = inr field
    /\ v = default (VStr []) field
    /\ match field with
       | None => r !! lit "Image Src" = Some []
       | Some _ => True
       end.
Proof.
  intros Hc Ha.
  assert (Hret : (upload_to_cloudinary L cfg W idx img_url
                    (row_public_id L cfg cols row sku) (row_referer L cols row)).2 = inr v).
  { unfold attempt_row in Ha. by rewrite Ha. }
  apply upload_returns in Hret as (payload & up & field & Hpost & Hj & Hv).
  unfold process_row. rewrite Hc, Ha. simpl.
  eexists _, payload, up, field. split; [reflexivity|]. unfold make_out_row.
  split; [rewrite lookup_insert_ne by (vm_compute; discriminate); apply lookup_insert_eq|].
  split; [apply lookup_insert_eq|]. repeat (split; [done|]).
  destruct field as [w|]; [done|]. simpl in Hv. subst v. apply lookup_insert_eq.
Qed.

Lemma processed_row_output_witness :
  processed (process_row Examples.excerpt Examples.cfg0
               (Examples.world_of (Table Examples.cols3 [Examples.row_a]))
               Examples.cols3 loop_init 0 Examples.row_a) = 1%nat.
Proof.
  destruct (processed_row_output Examples.excerpt Examples.cfg0
              (Examples.world_of (Table Examples.cols3 [Examples.row_a]))
              Examples.cols3 loop_init 0 Examples.row_a
              (lit "ABC1") (lit "http://x/a.png")
              [EvGet (lit "http://x/a.png") (request_headers None);
               EvPost (upload_endpoint Examples.cfg0) Scenario.payload_a]
              (VStr Examples.hosted))
    as (r & payload & up & field & _ & _ & _ & _ & H & _).
  - vm_compute. reflexivity.
  - vm_compute. reflexivity.
  - exact H.
Defined.

(** X25.  The output rows keep the order of the table: their SKUs, in
    order, are a subsequence of the trimmed SKU cells of the rows. *)
Theorem out_rows_in_order (L : pylib) (cfg : settings) (W : world) (df : table) :
  sublist
    (map (fun r : gmap pystr pystr => r !! lit "Variant SKU") (out_rows (loop L cfg W df)))
    (map (fun row => Some (cell_str L (row_get (columns df) row (lit "SKU")))) (rows df)).
Proof.
  unfold loop. generalize 0%nat. induction (rows df) as [|row todo IH]; intros idx; simpl.
  - constructor.
  - rewrite loop_from_extend. simpl. rewrite map_app.
    unfold process_row.
    destruct (check_row L (columns df) row) as [|sku|sku img] eqn:Hc; simpl.
    + apply sublist_cons, IH.
    + apply sublist_cons, IH.
    + apply check_row_ready in Hc as (Hsku & _).
      destruct (attempt_row L cfg W (columns df) idx row sku img) as [evs [e | v]]; simpl.
      * apply sublist_cons, IH.
      * unfold make_out_row.
        rewrite lookup_insert_ne by (vm_compute; discriminate).
        rewrite lookup_insert_eq, Hsku. apply sublist_skip, IH.
Qed.

(** ** What the trimming and the sanitizer keep *)

Lemma strip_middle (p : N -> bool) (s : pystr) :
  exists pre suf,
    s = pre ++ strip p s ++ suf
    /\ Forall (fun c => p c = true) pre /\ Forall (fun c => p c = true) suf.
Proof.
  unfold strip. destruct (lstrip_suffix p s) as (pre & Hs & Hp).
  destruct (rstrip_prefix p (lstrip p s)) as (suf & Hr & Hq).
  exists pre, suf. split; [|by split]. by rewrite <- Hr.
Qed.

(** X24.  The text of a cell that is not missing is the printed value
    without its leading and trailing whitespace: nothing inside is
    changed. *)
Theorem cell_str_middle (L : pylib) (val : pyval) :
  if isna val then cell_str L val = []
  else exists pre suf,
         py_str L val = pre ++ cell_str L val ++ suf
         /\ Forall (fun c => py_isspace c = true) pre
         /\ Forall (fun c => py_isspace c = true) suf.
Proof.
  unfold cell_str. destruct (isna val); [done|]. apply strip_middle.
Qed.

Lemma sub_runs_from_input (bad : N -> bool) (b : bool) (s : pystr) :
  Forall (fun c => c = underscore \/ c ∈ s) (sub_runs bad b s)
  /\ (length (sub_runs bad b s) <= length s)%nat.
Proof.
  revert b. induction s as [|c s IH]; intros b; simpl; [split; [constructor | lia]|].
  assert (Hw : forall b', Forall (fun d => d = underscore \/ d ∈ c :: s) (sub_runs bad b' s)).
  { intros b'. eapply Forall_impl; [apply (IH b')|].
    intros d [-> | Hd]; [by left | right; by right]. }
  destruct (bad c).
  - destruct b.
    + split; [apply Hw | destruct (IH true); lia].
    + split; [constructor; [by left | apply Hw] | destruct (IH true); simpl; lia].
  - split; [constructor; [right; left | apply Hw] | destruct (IH false); simpl; lia].
Qed.

(** X23.  The sanitizer invents nothing: every character of its output
    is an underscore or a character of the NFKD form of the input, and the
    output is no longer than that form. *)
Theorem to_public_id_from_input (L : pylib) (s : pystr) :
  Forall (fun c => c = underscore \/ c ∈ nfkd L s) (to_public_id L s)
  /\ (length (to_public_id L s) <= length (nfkd L s))%nat.
Proof.
  unfold to_public_id.
  set (f := List.filter (fun c => negb (combining_mark c)) (nfkd L s)).
  set (a := sub_runs (non_word L) false f).
  set (b := sub_runs is_underscore false a).
  assert (Hf : Forall (fun c => c ∈ nfkd L s) f /\ (length f <= length (nfkd L s))%nat).
  { split; [|apply List.filter_length_le].
    apply Forall_forall. intros c Hc. by apply elem_of_list_filter_bool in Hc as [? _]. }
  destruct Hf as [Hf Hfl].
  destruct (sub_runs_from_input (non_word L) false f) as [Ha Hal]. fold a in Ha, Hal.
  destruct (sub_runs_from_input is_underscore false a) as [Hb Hbl]. fold b in Hb, Hbl.
  assert (Hb' : Forall (fun c => c = underscore \/ c ∈ nfkd L s) b).
  { rewrite Forall_forall in *. intros c Hc. destruct (Hb c Hc) as [-> | Hc']; [by left|].
    destruct (Ha c Hc') as [-> | Hc'']; [by left | right; by apply Hf]. }
  destruct (strip_middle is_underscore b) as (pre & suf & Hs & _ & _).
  split.
  - rewrite Hs in Hb'. apply Forall_app in Hb' as [_ Hb'].
    by apply Forall_app in Hb' as [Hb' _].
  - apply (f_equal length) in Hs. rewrite !length_app in Hs. lia.
Qed.
